(** * Task6/files/app.py: the fake-user form handler

    A shallow embedding of the Flask application [app.py]: the start-up
    code of the module (lines 7-16), [get_db_conn] (lines 18-19) and the
    single route handler [index] (lines 21-56).

    The database driver and the web framework are external to the
    program.  Their part is an explicit environment: a [server] oracle
    answers connection attempts and statements, and every call the program
    makes on the driver is recorded in a log of [db_event]s. *)

From Stdlib Require Import ZArith Ascii String List Bool Lia.
From Stdlib Require DecimalString DecimalZ DecimalPos.
From stdpp Require Import base option list strings gmap.

Open Scope string_scope.
Open Scope list_scope.
Open Scope Z_scope.

(** ** Python values and exceptions *)

(** The values the handler stores in its locals, binds to the statement
    and finds in rows: [str], [int] and [None]. *)
Inductive value : Type :=
| VStr (s : string)
| VInt (z : Z)
| VNone.

Inductive exn : Type :=
| ValueError (literal : string)   (* int() on a string that is no integer *)
| TypeError                       (* int() on None *)
| RuntimeError (msg : string)     (* raised by the module itself, line 14 *)
| PsycopgError (msg : string).    (* whatever the driver raises *)

Inductive result (A : Type) : Type :=
| Ok (a : A)
| Raised (e : exn).
Arguments Ok {A} a.
Arguments Raised {A} e.

(** ** The builtin [int]

    A Python [str] is a sequence of code points; a [string] here stands
    for the [str] it encodes in UTF-8, so that two are equal exactly when
    the [str]s are.

    [int(s)], base 10, as CPython reads it.  First
    [_PyUnicode_TransformDecimalAndSpaceToASCII]: a code point below 127
    is kept, a Unicode white space becomes a blank, a Unicode decimal
    digit becomes the ASCII digit of its value, and at anything else the
    text is cut behind a question mark.  Then [PyLong_FromString]:
    leading white space, an optional sign, decimal digits in which single
    underscores may separate digits, trailing white space, and nothing
    else. *)
Module PyInt.

(** A continuation byte of UTF-8, and its six bits. *)
Definition is_cont (c : ascii) : bool :=
  ((128 <=? N_of_ascii c) && (N_of_ascii c <=? 191))%N.

Definition cont_bits (c : ascii) : N := (N_of_ascii c - 128)%N.

(** The code points of a text, [None] for bytes that encode no [str]:
    a stray or missing continuation byte, an overlong form, a surrogate,
    a value above U+10FFFF. *)
Fixpoint code_points (l : list ascii) : option (list N) :=
  match l with
  | [] => Some []
  | c0 :: l1 =>
      let b0 := N_of_ascii c0 in
      if (b0 <? 128)%N then
        option_map (cons b0) (code_points l1)
      else if (b0 <? 194)%N then None
      else if (b0 <? 224)%N then
        match l1 with
        | c1 :: l2 =>
            if is_cont c1 then
              option_map (cons ((b0 - 192) * 64 + cont_bits c1)%N) (code_points l2)
            else None
        | _ => None
        end
      else if (b0 <? 240)%N then
        match l1 with
        | c1 :: c2 :: l3 =>
            let cp := ((b0 - 224) * 4096 + cont_bits c1 * 64 + cont_bits c2)%N in
            if is_cont c1 && is_cont c2 && (2048 <=? cp)%N
               && negb ((55296 <=? cp) && (cp <=? 57343))%N
            then option_map (cons cp) (code_points l3)
            else None
        | _ => None
        end
      else if (b0 <? 245)%N then
        match l1 with
        | c1 :: c2 :: c3 :: l4 =>
            let cp := ((b0 - 240) * 262144 + cont_bits c1 * 4096
                       + cont_bits c2 * 64 + cont_bits c3)%N in
            if is_cont c1 && is_cont c2 && is_cont c3
               && (65536 <=? cp)%N && (cp <=? 1114111)%N
            then option_map (cons cp) (code_points l4)
            else None
        | _ => None
        end
      else None
  end.

(** [Py_UNICODE_ISSPACE] above ASCII. *)
Definition is_unicode_space (cp : N) : bool :=
  ((cp =? 0x85) || (cp =? 0xA0) || (cp =? 0x1680)
   || ((0x2000 <=? cp) && (cp <=? 0x200A))
   || (cp =? 0x2028) || (cp =? 0x2029) || (cp =? 0x202F)
   || (cp =? 0x205F) || (cp =? 0x3000))%N.

(** The decimal digits above ASCII come in runs of ten, zero to nine:
    the zero of each run (Unicode 14.0, the data of CPython 3.11). *)
Definition decimal_zeros : list N :=
  [0x660; 0x6F0; 0x7C0; 0x966; 0x9E6; 0xA66;
   0xAE6; 0xB66; 0xBE6; 0xC66; 0xCE6; 0xD66;
   0xDE6; 0xE50; 0xED0; 0xF20; 0x1040; 0x1090;
   0x17E0; 0x1810; 0x1946; 0x19D0; 0x1A80; 0x1A90;
   0x1B50; 0x1BB0; 0x1C40; 0x1C50; 0xA620; 0xA8D0;
   0xA900; 0xA9D0; 0xA9F0; 0xAA50; 0xABF0; 0xFF10;
   0x104A0; 0x10D30; 0x11066; 0x110F0; 0x11136; 0x111D0;
   0x112F0; 0x11450; 0x114D0; 0x11650; 0x116C0; 0x11730;
   0x118E0; 0x11950; 0x11C50; 0x11D50; 0x11DA0; 0x16A60;
   0x16AC0; 0x16B50; 0x1D7CE; 0x1D7D8; 0x1D7E2; 0x1D7EC;
   0x1D7F6; 0x1E140; 0x1E2F0; 0x1E950; 0x1FBF0]%N.

(** [Py_UNICODE_TODECIMAL] above ASCII. *)
Definition to_decimal (cp : N) : option N :=
  match find (fun z => (z <=? cp) && (cp <? z + 10))%N decimal_zeros with
  | Some z => Some (cp - z)%N
  | None => None
  end.

(** The transformation to ASCII. *)
Fixpoint to_ascii (cps : list N) : list ascii :=
  match cps with
  | [] => []
  | cp :: cps' =>
      if (cp <? 127)%N then ascii_of_N cp :: to_ascii cps'
      else if is_unicode_space cp then " "%char :: to_ascii cps'
      else
        match to_decimal cp with
        | Some d => ascii_of_N (48 + d) :: to_ascii cps'
        | None => ["?"%char]
        end
  end.

Definition is_space (c : ascii) : bool :=
  let n := N_of_ascii c in
  (((9 <=? n) && (n <=? 13)) || (n =? 32))%N.

Definition digit_value (c : ascii) : option Z :=
  let n := N_of_ascii c in
  if ((48 <=? n) && (n <=? 57))%N then Some (Z.of_N n - 48) else None.

Definition is_underscore (c : ascii) : bool := (N_of_ascii c =? 95)%N.

Fixpoint skip_space (l : list ascii) : list ascii :=
  match l with
  | c :: l' => if is_space c then skip_space l' else l
  | [] => []
  end.

(** The sign: [(negative, rest)]. *)
Definition take_sign (l : list ascii) : bool * list ascii :=
  match l with
  | c :: l' =>
      if (N_of_ascii c =? 43)%N then (false, l')        (* + *)
      else if (N_of_ascii c =? 45)%N then (true, l')    (* - *)
      else (false, l)
  | [] => (false, [])
  end.

(** The scan over digits and underscores.  [prev_us] says that the
    previous character was an underscore; the digits are collected most
    significant first in [acc] (reversed).  The scan stops at the first
    character that is neither; two underscores in a row are an error. *)
Fixpoint scan (prev_us : bool) (acc : list Z) (l : list ascii)
  : option (bool * list Z * list ascii) :=
  match l with
  | [] => Some (prev_us, acc, [])
  | c :: l' =>
      if is_underscore c then
        if prev_us then None else scan true acc l'
      else
        match digit_value c with
        | Some d => scan false (d :: acc) l'
        | None => Some (prev_us, acc, l)
        end
  end.

Definition digits_value (ds : list Z) : Z :=
  fold_left (fun a d => 10 * a + d) ds 0.

(** [sys.get_int_max_str_digits()], at its default. *)
Definition int_max_str_digits : Z := 4300.

(** [PyLong_FromString] on the transformed text. *)
Definition parse_ascii (l : list ascii) : option Z :=
  let l := skip_space l in
  let '(neg, l) := take_sign l in
  match l with
  | c :: _ =>
      if is_underscore c then None          (* may not start with _ *)
      else
        match scan false [] l with
        | Some (prev_us, acc, rest) =>
            if prev_us then None            (* may not end with _ *)
            else if (Z.of_nat (length acc) =? 0) then None
            else if (int_max_str_digits <? Z.of_nat (length acc)) then None
            else
              match skip_space rest with
              | [] =>
                  let n := digits_value (rev acc) in
                  Some (if neg then - n else n)
              | _ :: _ => None
              end
        | None => None
        end
  | [] => None
  end.

Definition parse (s : string) : option Z :=
  match code_points (list_ascii_of_string s) with
  | Some cps => parse_ascii (to_ascii cps)
  | None => None
  end.

End PyInt.

(** [int(x)] for the values the handler applies it to: a form string or
    an integer default. *)
Definition py_int (x : value) : result Z :=
  match x with
  | VInt z => Ok z
  | VStr s =>
      match PyInt.parse s with
      | Some z => Ok z
      | None => Raised (ValueError s)
      end
  | VNone => Raised TypeError
  end.

Definition rbind {A B} (r : result A) (k : A -> result B) : result B :=
  match r with
  | Ok a => k a
  | Raised e => Raised e
  end.

Notation "'let?' x ':=' r 'in' k" := (rbind r (fun x => k))
  (at level 10, x name, r at level 100, k at level 200).

#[global] Instance value_eq_dec : EqDecision value.
Proof. solve_decision. Defined.

(** ** The request *)

(** [request.form] is a multi-dict: the fields in the order of the body,
    a key possibly more than once. *)
Definition form_data : Type := list (string * string).

Record request : Type := {
  method : string;
  form : form_data
}.

(** The first value sent for [key], if any. *)
Fixpoint form_lookup (f : form_data) (key : string) : option string :=
  match f with
  | [] => None
  | (k, v) :: f' => if String.eqb k key then Some v else form_lookup f' key
  end.

(** [request.form.get(key, default)]: the first value sent for [key], or
    [default] when the key is absent. *)
Definition form_get (f : form_data) (key : string) (default : value) : value :=
  match form_lookup f key with
  | Some v => VStr v
  | None => default
  end.

(** ** The database driver as an environment *)

(** A row made by [dict_row]: column name to value, in column order. *)
Definition row : Type := list (string * value).

(** Connections are told apart by a handle. *)
Definition handle : Type := nat.

(** What the program asks of the driver, in the order it asks. *)
Inductive db_event : Type :=
| EvConnect (conninfo : string) (h : handle)  (* psycopg.connect returned h *)
| EvConnectFailed (conninfo : string)         (* psycopg.connect raised *)
| EvCursor (h : handle)                       (* h.cursor(row_factory=dict_row) *)
| EvExecute (h : handle) (sql : string) (args : list value)
| EvFetchall (h : handle)
| EvCursorClose (h : handle)
| EvCommit (h : handle)
| EvRollback (h : handle)
| EvClose (h : handle).

(** The database server: whether it accepts a connection and what it
    answers to a statement, both possibly depending on everything that
    happened before. *)
Record server : Type := {
  srv_connect : list db_event -> string -> option string;
  srv_execute : list db_event -> string -> list value -> string + list row
}.

Record world : Type := {
  next_handle : handle;
  log : list db_event
}.

Definition emit (ev : db_event) (w : world) : world :=
  {| next_handle := next_handle w; log := log w ++ [ev] |}.

(** ** A state and exception monad for the Python code *)

Definition M (A : Type) : Type := world -> result A * world.

Definition ret {A} (a : A) : M A := fun w => (Ok a, w).

Definition raise {A} (e : exn) : M A := fun w => (Raised e, w).

Definition bind {A B} (m : M A) (k : A -> M B) : M B :=
  fun w =>
    match m w with
    | (Ok a, w') => k a w'
    | (Raised e, w') => (Raised e, w')
    end.

Definition lift {A} (r : result A) : M A := fun w => (r, w).

Notation "'let!' x ':=' m 'in' k" := (bind m (fun x => k))
  (at level 10, x name, m at level 100, k at level 200).

(** [with mgr as x: body].  [enter] builds the manager and enters it;
    [leave] is [__exit__], told the exception of the body if there is one.
    Neither manager of the program swallows the exception, so it is raised
    again after [leave]. *)
Definition with_ {R A} (enter : M R) (leave : R -> option exn -> M unit)
    (body : R -> M A) : M A :=
  fun w =>
    match enter w with
    | (Raised e, w1) => (Raised e, w1)
    | (Ok r, w1) =>
        match body r w1 with
        | (Ok a, w2) =>
            match leave r None w2 with
            | (Ok _, w3) => (Ok a, w3)
            | (Raised e', w3) => (Raised e', w3)
            end
        | (Raised e, w2) =>
            match leave r (Some e) w2 with
            | (Ok _, w3) => (Raised e, w3)
            | (Raised e', w3) => (Raised e', w3)
            end
        end
    end.

(** ** The driver calls the program makes *)

Record cursor : Type := {
  cur_conn : handle;
  cur_result : option (list row)   (* the result set of the last execute *)
}.

Section Driver.

Variable srv : server.

(** [psycopg.connect(conninfo)] *)
Definition connect (conninfo : string) : M handle :=
  fun w =>
    match srv_connect srv (log w) conninfo with
    | Some msg => (Raised (PsycopgError msg), emit (EvConnectFailed conninfo) w)
    | None =>
        let h := next_handle w in
        (Ok h, {| next_handle := S h; log := log w ++ [EvConnect conninfo h] |})
    end.

(** [Connection.__exit__], as the driver documents it: commit, or roll
    back when the block raised, then close.  The commit of the one SELECT
    is taken to succeed. *)
Definition connection_exit (h : handle) (exc : option exn) : M unit :=
  fun w =>
    let ev := match exc with Some _ => EvRollback h | None => EvCommit h end in
    (Ok tt, emit (EvClose h) (emit ev w)).

(** [conn.cursor(row_factory=dict_row)] *)
Definition open_cursor (h : handle) : M cursor :=
  fun w => (Ok {| cur_conn := h; cur_result := None |}, emit (EvCursor h) w).

(** [Cursor.__exit__] *)
Definition cursor_exit (c : cursor) (exc : option exn) : M unit :=
  fun w => (Ok tt, emit (EvCursorClose (cur_conn c)) w).

(** [cur.execute(sql, args)]: the statement goes to the server with its
    arguments beside it; the cursor keeps the rows of the answer. *)
Definition execute (c : cursor) (sql : string) (args : list value) : M cursor :=
  fun w =>
    let w' := emit (EvExecute (cur_conn c) sql args) w in
    match srv_execute srv (log w) sql args with
    | inl msg => (Raised (PsycopgError msg), w')
    | inr rows => (Ok {| cur_conn := cur_conn c; cur_result := Some rows |}, w')
    end.

(** [cur.fetchall()] *)
Definition fetchall (c : cursor) : M (list row) :=
  fun w =>
    let w' := emit (EvFetchall (cur_conn c)) w in
    match cur_result c with
    | Some rows => (Ok rows, w')
    | None => (Raised (PsycopgError "the last operation didn't produce a result"), w')
    end.

End Driver.

(** ** The module: start-up, [get_db_conn] and [index] *)

(** [os.environ] *)
Abbreviation environ := (gmap string string).

(** The module's globals once it is loaded. *)
Record module_state : Type := {
  DB_CONN : string;
  conn : handle       (* the connection of line 16; [index] never uses it *)
}.

(** The locals of [index], which are also what the template is given. *)
Record context : Type := {
  locale : value;
  seed : Z;
  batch_size : Z;
  batch_index : Z;
  users : list row
}.

Inductive response : Type :=
| Rendered (template : string) (ctx : context)   (* render_template(...) *)
| AutomaticOptions                               (* the framework's OPTIONS answer *)
| MethodNotAllowed.                              (* the framework's 405 *)

Definition render_template (template : string) (ctx : context) : response :=
  Rendered template ctx.

(** Lines 23-27. *)
Definition defaults : context :=
  {| locale := VStr "en_US"; seed := 123; batch_size := 10;
     batch_index := 0; users := [] |}.

(** Lines 30-39: the form is read into the locals.  Nothing here touches
    the database. *)
Definition read_form (f : form_data) (c : context) : result context :=
  let locale' := form_get f "locale" (locale c) in
  let? seed' := py_int (form_get f "seed" (VInt (seed c))) in
  let? batch_size' := py_int (form_get f "batch_size" (VInt (batch_size c))) in
  let action := form_get f "action" (VStr "generate") in
  let? batch_index' :=
    (if decide (action = VStr "next")
     then let? k := py_int (form_get f "batch_index" (VInt 0)) in Ok (k + 1)
     else Ok 0) in
  Ok {| locale := locale'; seed := seed'; batch_size := batch_size';
        batch_index := batch_index'; users := users c |}.

(** The statement of line 44. *)
Definition select_fake_users : string :=
  "SELECT * FROM generate_fake_users(%s, %s, %s, %s)".

(** The tuple of line 45. *)
Definition query_args (c : context) : list value :=
  [locale c; VInt (seed c); VInt (batch_size c); VInt (batch_index c)].

Section App.

Variable srv : server.

(** [load_dotenv()] of line 7 belongs to a library: all the module
    relies on is that it may change the environment before line 11
    reads it. *)
Variable load_dotenv : environ -> environ.

(** Lines 7-16, the code run when the module is loaded.  [not DB_CONN]
    holds for [None] and for the empty string. *)
Definition module_init (os_environ : environ) : M module_state :=
  let os_environ := load_dotenv os_environ in
  match os_environ !! "DB_CONN" with
  | Some s =>
      if String.eqb s "" then
        raise (RuntimeError "DB_CONN environment variable is not set")
      else
        let! c := connect srv s in
        ret {| DB_CONN := s; conn := c |}
  | None => raise (RuntimeError "DB_CONN environment variable is not set")
  end.

(** Lines 18-19. *)
Definition get_db_conn (m : module_state) : M handle :=
  connect srv (DB_CONN m).

(** Lines 41-47. *)
Definition fetch_users (m : module_state) (c : context) : M (list row) :=
  with_ (get_db_conn m) connection_exit (fun conn =>
    with_ (open_cursor conn) cursor_exit (fun cur =>
      let! cur := execute srv cur select_fake_users (query_args c) in
      fetchall cur)).

(** Lines 22-56. *)
Definition index (m : module_state) (req : request) : M response :=
  if String.eqb (method req) "POST" then
    let! c := lift (read_form (form req) defaults) in
    let! rows := fetch_users m c in
    ret (render_template "index.html"
           {| locale := locale c; seed := seed c; batch_size := batch_size c;
              batch_index := batch_index c; users := rows |})
  else
    ret (render_template "index.html" defaults).

(** Line 21, [methods=["GET", "POST"]]: the framework also sends HEAD
    to the view, answers OPTIONS itself and refuses the rest. *)
Definition dispatch (m : module_state) (req : request) : M response :=
  if String.eqb (method req) "GET" || String.eqb (method req) "HEAD"
     || String.eqb (method req) "POST"
  then index m req
  else if String.eqb (method req) "OPTIONS" then ret AutomaticOptions
  else ret MethodNotAllowed.

(** The requests are served one after the other; a request that raises
    is answered with a server error and the next one is served. *)
Fixpoint serve (m : module_state) (reqs : list request) (w : world)
  : list (result response) * world :=
  match reqs with
  | [] => ([], w)
  | req :: reqs' =>
      let '(r, w1) := dispatch m req w in
      let '(rs, w2) := serve m reqs' w1 in
      (r :: rs, w2)
  end.

(** The process: load the module, then (line 60) serve.  When loading
    raises there is no application to serve anything. *)
Definition main (os_environ : environ) (reqs : list request) (w : world)
  : result module_state * list (result response) * world :=
  match module_init os_environ w with
  | (Ok m, w1) => let '(rs, w2) := serve m reqs w1 in (Ok m, rs, w2)
  | (Raised e, w1) => (Raised e, [], w1)
  end.

End App.

(** What a run added to the log. *)
Definition new_events (w w' : world) : list db_event :=
  drop (length (log w)) (log w').

(** The statements in a piece of log, with their arguments. *)
Definition db_calls (evs : list db_event) : list (string * list value) :=
  omap (fun ev => match ev with
                  | EvExecute _ sql args => Some (sql, args)
                  | _ => None
                  end) evs.

(** The handles opened, and those closed, in a piece of log. *)
Definition opened (evs : list db_event) : list handle :=
  omap (fun ev => match ev with EvConnect _ h => Some h | _ => None end) evs.

Definition closed (evs : list db_event) : list handle :=
  omap (fun ev => match ev with EvClose h => Some h | _ => None end) evs.

(** The connection attempts, successful or not. *)
Definition connect_attempts (evs : list db_event) : list string :=
  omap (fun ev => match ev with
                  | EvConnect ci _ => Some ci
                  | EvConnectFailed ci => Some ci
                  | _ => None
                  end) evs.

(** ** Sample environments and requests *)

Definition post (f : form_data) : request := {| method := "POST"; form := f |}.

Definition sample_rows : list row :=
  [[("name", VStr "Ada"); ("age", VInt 36)]; [("name", VStr "Bob"); ("age", VNone)]].

(** A server that accepts every connection and answers every statement
    with [sample_rows]. *)
Definition good_server : server :=
  {| srv_connect := fun _ _ => None; srv_execute := fun _ _ _ => inr sample_rows |}.

(** A server that accepts connections and fails every statement. *)
Definition failing_server : server :=
  {| srv_connect := fun _ _ => None; srv_execute := fun _ _ _ => inl "query failed" |}.

(** A server that refuses every connection. *)
Definition down_server : server :=
  {| srv_connect := fun _ _ => Some "connection refused";
     srv_execute := fun _ _ _ => inl "no connection" |}.

Definition sample_module : module_state := {| DB_CONN := "dbname=fake"; conn := 0%nat |}.

(** The world right after the module was loaded against [good_server]. *)
Definition loaded_world : world :=
  {| next_handle := 1%nat; log := [EvConnect "dbname=fake" 0%nat] |}.

Definition empty_world : world := {| next_handle := 0%nat; log := [] |}.

(** The requests of the examples. *)
Definition req_next_3 : request :=
  post [("batch_size", "10"); ("batch_index", "3"); ("action", "next")].

Definition req_generate_fr : request :=
  post [("locale", "fr_FR"); ("seed", "42"); ("batch_size", "5");
        ("batch_index", "0"); ("action", "generate")].

Definition req_next_minus_5 : request :=
  post [("batch_index", "-5"); ("action", "next")].

Definition req_next_only : request := post [("action", "next")].

Definition req_seed_abc : request := post [("seed", "abc")].

Definition req_seed_42 : request := post [("seed", "42")].

(** The result and the new log entries of one call of [index]. *)
Definition outcome (srv : server) (m : module_state) (req : request) (w : world)
  : result response :=
  fst (index srv m req w).

Definition events (srv : server) (m : module_state) (req : request) (w : world)
  : list db_event :=
  new_events w (snd (index srv m req w)).

(** The server accepts the connection [index] asks for in world [w]. *)
Definition accepts (srv : server) (m : module_state) (w : world) : Prop :=
  srv_connect srv (log w) (DB_CONN m) = None.

(** The log as the server sees it when the statement of [index] arrives. *)
Definition log_at_query (m : module_state) (w : world) : list db_event :=
  log w ++ [EvConnect (DB_CONN m) (next_handle w); EvCursor (next_handle w)].

(** The server answers the statement of [index] with [rows]. *)
Definition answers (srv : server) (m : module_state) (c : context) (w : world)
    (rows : list row) : Prop :=
  srv_execute srv (log_at_query m w) select_fake_users (query_args c) = inr rows.

(** The three ways a request that got past the form can end. *)
Definition events_refused (m : module_state) : list db_event :=
  [EvConnectFailed (DB_CONN m)].

Definition events_failed (m : module_state) (c : context) (h : handle) : list db_event :=
  [EvConnect (DB_CONN m) h; EvCursor h;
   EvExecute h select_fake_users (query_args c);
   EvCursorClose h; EvRollback h; EvClose h].

Definition events_done (m : module_state) (c : context) (h : handle) : list db_event :=
  [EvConnect (DB_CONN m) h; EvCursor h;
   EvExecute h select_fake_users (query_args c);
   EvFetchall h; EvCursorClose h; EvCommit h; EvClose h].

Definition with_users (c : context) (rows : list row) : context :=
  {| locale := locale c; seed := seed c; batch_size := batch_size c;
     batch_index := batch_index c; users := rows |}.

(** The handles an event names. *)
Definition event_handles (ev : db_event) : list handle :=
  match ev with
  | EvConnectFailed _ => []
  | EvConnect _ h | EvCursor h | EvExecute h _ _ | EvFetchall h
  | EvCursorClose h | EvCommit h | EvRollback h | EvClose h => [h]
  end.

(** Every handle in the log was given out already. *)
Definition wf_world (w : world) : Prop :=
  forall ev h, In ev (log w) -> In h (event_handles ev) -> (h < next_handle w)%nat.

(** The batch index a call of [index] uses: the fourth argument of a
    statement it sends, or the one in the page it renders. *)
Definition uses_batch_index (srv : server) (m : module_state) (req : request)
    (w : world) (bi : Z) : Prop :=
  (exists h sql args,
      In (EvExecute h sql args) (events srv m req w) /\ args !! 3%nat = Some (VInt bi)) \/
  (exists t ctx, outcome srv m req w = Ok (Rendered t ctx) /\ batch_index ctx = bi).

(** The text of seed, batch_size, or batch_index under action "next",
    is no integer. *)
Definition non_numeric_field (f : form_data) : Prop :=
  (exists s, form_lookup f "seed" = Some s /\ PyInt.parse s = None) \/
  (exists s, form_lookup f "batch_size" = Some s /\ PyInt.parse s = None) \/
  (form_lookup f "action" = Some "next" /\
   exists s, form_lookup f "batch_index" = Some s /\ PyInt.parse s = None).

(** A POST request ends in one of four ways. *)
Inductive post_run (srv : server) (m : module_state) (req : request) (w : world)
  : result response -> list db_event -> Prop :=
| run_bad_form e :
    read_form (form req) defaults = Raised e ->
    post_run srv m req w (Raised e) []
| run_refused c msg :
    read_form (form req) defaults = Ok c ->
    srv_connect srv (log w) (DB_CONN m) = Some msg ->
    post_run srv m req w (Raised (PsycopgError msg)) (events_refused m)
| run_failed c msg :
    read_form (form req) defaults = Ok c ->
    accepts srv m w ->
    srv_execute srv (log_at_query m w) select_fake_users (query_args c) = inl msg ->
    post_run srv m req w (Raised (PsycopgError msg)) (events_failed m c (next_handle w))
| run_done c rows :
    read_form (form req) defaults = Ok c ->
    accepts srv m w ->
    answers srv m c w rows ->
    post_run srv m req w (Ok (Rendered "index.html" (with_users c rows)))
      (events_done m c (next_handle w)).

(** [w'] comes from [w] by serving requests: the log only grew, every
    handle that appears in the new part was given out meanwhile, every
    connection opened in it was closed in it, and the only statement in
    it is the SELECT. *)
Definition served_from (w w' : world) : Prop :=
  exists evs : list db_event,
    log w' = log w ++ evs /\
    (next_handle w <= next_handle w')%nat /\
    opened evs = closed evs /\
    (forall ev h, In ev evs -> In h (event_handles ev) ->
                  (next_handle w <= h < next_handle w')%nat) /\
    (forall h sql args, In (EvExecute h sql args) evs -> sql = select_fake_users).

(** ** Further notions *)

(** The fields [index] reads from the form. *)
Definition read_fields : list string :=
  ["locale"; "seed"; "batch_size"; "action"; "batch_index"].

(** Two forms send the same first value, or none, for each of them. *)
Definition same_fields (f1 f2 : form_data) : Prop :=
  forall key, In key read_fields -> form_lookup f1 key = form_lookup f2 key.

(** A server whose answers do not depend on what happened before. *)
Definition history_independent (srv : server) : Prop :=
  forall l1 l2 : list db_event,
    (forall ci, srv_connect srv l1 ci = srv_connect srv l2 ci) /\
    (forall sql args, srv_execute srv l1 sql args = srv_execute srv l2 sql args).

(** A server that accepts every connection and answers every statement
    with rows. *)
Definition always_answers (srv : server) : Prop :=
  forall l : list db_event,
    (forall ci, srv_connect srv l ci = None) /\
    (forall sql args, exists rows, srv_execute srv l sql args = inr rows).

(** The batch index of the page a request was answered with. *)
Definition page_index (r : result response) : option Z :=
  match r with
  | Ok (Rendered _ ctx) => Some (batch_index ctx)
  | _ => None
  end.

(** A client pages forward from batch index [b]: every request is a POST
    with action "next" whose batch_index reads as the index of the page
    the client has, [b] at first, and whose seed and batch_size convert. *)
Inductive pages_forward : Z -> list request -> Prop :=
| pages_done b : pages_forward b []
| pages_next b req reqs s n :
    method req = "POST" ->
    py_int (form_get (form req) "seed" (VInt 123)) = Ok s ->
    py_int (form_get (form req) "batch_size" (VInt 10)) = Ok n ->
    form_get (form req) "action" (VStr "generate") = VStr "next" ->
    py_int (form_get (form req) "batch_index" (VInt 0)) = Ok b ->
    pages_forward (b + 1) reqs ->
    pages_forward b (req :: reqs).

(** The handles statements were sent on. *)
Definition executed_on (evs : list db_event) : list handle :=
  omap (fun ev => match ev with EvExecute h _ _ => Some h | _ => None end) evs.

(** The request gets as far as the database: a POST whose form
    converts. *)
Definition reaches_database (req : request) : bool :=
  String.eqb (method req) "POST"
  && match read_form (form req) defaults with Ok _ => true | Raised _ => false end.

(** [w'] comes from [w] by serving, for module [m], requests of which
    [n] reached the database: [n] connections were asked for, each with
    the module's DB_CONN; the handles named meanwhile were given out
    meanwhile and belong to connections opened meanwhile; no two
    connections opened are the same, and no two statements were sent on
    the same connection. *)
Definition served_by (m : module_state) (n : nat) (w w' : world) : Prop :=
  exists evs : list db_event,
    log w' = log w ++ evs /\
    (next_handle w <= next_handle w')%nat /\
    (forall ev h, In ev evs -> In h (event_handles ev) ->
                  (next_handle w <= h < next_handle w')%nat /\ In h (opened evs)) /\
    NoDup (opened evs) /\
    NoDup (executed_on evs) /\
    connect_attempts evs = List.repeat (DB_CONN m) n.

(** The decimal numeral of an integer: a minus sign for a negative one,
    then the digits without leading zeros; what a number field or a
    hidden field holding the integer sends. *)
Definition decimal_text (z : Z) : string :=
  DecimalString.NilZero.string_of_int (Z.to_int z).

(** The digits of a decimal number, most significant first. *)
Fixpoint uint_digits (d : Decimal.uint) : list Z :=
  match d with
  | Decimal.Nil => []
  | Decimal.D0 d => 0 :: uint_digits d
  | Decimal.D1 d => 1 :: uint_digits d
  | Decimal.D2 d => 2 :: uint_digits d
  | Decimal.D3 d => 3 :: uint_digits d
  | Decimal.D4 d => 4 :: uint_digits d
  | Decimal.D5 d => 5 :: uint_digits d
  | Decimal.D6 d => 6 :: uint_digits d
  | Decimal.D7 d => 7 :: uint_digits d
  | Decimal.D8 d => 8 :: uint_digits d
  | Decimal.D9 d => 9 :: uint_digits d
  end.

(** * Properties *)

(** ** The model at work *)

Example parse_examples :
  map PyInt.parse
    ["12"; "-5"; "+7"; " 12 "; "1_000"; "007"; ""; " "; "abc"; "1.5"; "12a";
     "_1"; "1_"; "1__0"; "- 1"; "--1"; "0x10"] =
    [Some 12; Some (-5); Some 7; Some 12; Some 1000; Some 7; None; None; None;
     None; None; None; None; None; None; None; None].
Proof. reflexivity. Qed.

(** Digits and white space beyond ASCII: Arabic-Indic and full-width
    digits, a no-break space (bytes 194 160) in front, a line separator
    (bytes 226 128 168) behind; a superscript two and a minus sign
    U+2212 are neither. *)
Example parse_unicode_examples :
  map PyInt.parse
    ["١٢٣"; "-٥"; "１２"; "1٢_3";
     String (ascii_of_N 194) (String (ascii_of_N 160) "12");
     String "7" (String (ascii_of_N 226) (String (ascii_of_N 128)
       (String (ascii_of_N 168) EmptyString)));
     "²"; "−5"; String (ascii_of_N 28) "5"; String (ascii_of_N 160) "12"] =
    [Some 123; Some (-5); Some 12; Some 123; Some 12; Some 7;
     None; None; None; None].
Proof. vm_compute. reflexivity. Qed.

Example unicode_seed_is_converted :
  outcome good_server sample_module (post [("seed", "١٢٣")]) loaded_world =
    Ok (Rendered "index.html"
          {| locale := VStr "en_US"; seed := 123; batch_size := 10;
             batch_index := 0; users := sample_rows |}).
Proof. vm_compute. reflexivity. Qed.

Example module_init_loads :
  module_init good_server (fun e => e) {["DB_CONN" := "dbname=fake"]} empty_world =
    (Ok sample_module, loaded_world).
Proof. vm_compute. reflexivity. Qed.

Example main_serves_two_requests :
  main good_server (fun e => e) {["DB_CONN" := "dbname=fake"]}
    [req_next_only; {| method := "GET"; form := [] |}] empty_world =
    (Ok sample_module,
     [Ok (Rendered "index.html"
            {| locale := VStr "en_US"; seed := 123; batch_size := 10;
               batch_index := 1; users := sample_rows |});
      Ok (Rendered "index.html" defaults)],
     {| next_handle := 2%nat;
        log := EvConnect "dbname=fake" 0%nat
               :: events_done sample_module
                    {| locale := VStr "en_US"; seed := 123; batch_size := 10;
                       batch_index := 1; users := [] |} 1%nat |}).
Proof. vm_compute. reflexivity. Qed.

Example refused_connection_run :
  index down_server sample_module req_seed_42 loaded_world =
    (Raised (PsycopgError "connection refused"),
     {| next_handle := 1%nat;
        log := [EvConnect "dbname=fake" 0%nat; EvConnectFailed "dbname=fake"] |}).
Proof. reflexivity. Qed.

(** ** How [index] runs *)

Lemma new_events_app (w : world) (n : handle) (evs : list db_event) :
  new_events w {| next_handle := n; log := log w ++ evs |} = evs.
Proof. unfold new_events; simpl. apply drop_app_length. Qed.

Lemma new_events_same (w : world) : new_events w w = [].
Proof. unfold new_events. apply drop_all. Qed.

Lemma new_events_emit (w : world) (ev : db_event) : new_events w (emit ev w) = [ev].
Proof. unfold emit. apply new_events_app. Qed.

Lemma index_not_post srv m req w :
  String.eqb (method req) "POST" = false ->
  index srv m req w = (Ok (Rendered "index.html" defaults), w).
Proof. intros H. unfold index. rewrite H. reflexivity. Qed.

Lemma index_post_raised srv m req w e :
  method req = "POST" ->
  read_form (form req) defaults = Raised e ->
  index srv m req w = (Raised e, w).
Proof.
  intros Hm Hr. unfold index, bind, lift. rewrite Hm, Hr. reflexivity.
Qed.

Lemma index_post_refused srv m req w c msg :
  method req = "POST" ->
  read_form (form req) defaults = Ok c ->
  srv_connect srv (log w) (DB_CONN m) = Some msg ->
  index srv m req w =
    (Raised (PsycopgError msg), emit (EvConnectFailed (DB_CONN m)) w).
Proof.
  intros Hm Hr Hc.
  unfold index, fetch_users, with_, get_db_conn, connect, bind, lift.
  rewrite Hm, Hr; simpl. rewrite Hc. reflexivity.
Qed.

Lemma index_post_failed srv m req w c msg :
  method req = "POST" ->
  read_form (form req) defaults = Ok c ->
  accepts srv m w ->
  srv_execute srv (log_at_query m w) select_fake_users (query_args c) = inl msg ->
  index srv m req w =
    (Raised (PsycopgError msg),
     {| next_handle := S (next_handle w);
        log := log w ++ events_failed m c (next_handle w) |}).
Proof.
  intros Hm Hr Hc Hx. unfold accepts in Hc. unfold log_at_query in Hx.
  unfold index, fetch_users, with_, get_db_conn, connect,
    open_cursor, execute, cursor_exit, connection_exit, emit, bind, lift.
  rewrite Hm, Hr; simpl. rewrite Hc; simpl.
  rewrite <- app_assoc; simpl. rewrite Hx; simpl.
  unfold events_failed. repeat (rewrite <- app_assoc; simpl). reflexivity.
Qed.

Lemma index_post_done srv m req w c rows :
  method req = "POST" ->
  read_form (form req) defaults = Ok c ->
  accepts srv m w ->
  answers srv m c w rows ->
  index srv m req w =
    (Ok (Rendered "index.html" (with_users c rows)),
     {| next_handle := S (next_handle w);
        log := log w ++ events_done m c (next_handle w) |}).
Proof.
  intros Hm Hr Hc Hx. unfold accepts in Hc. unfold answers, log_at_query in Hx.
  unfold index, fetch_users, with_, get_db_conn, connect,
    open_cursor, execute, fetchall, cursor_exit, connection_exit, emit,
    bind, lift, ret.
  rewrite Hm, Hr; simpl. rewrite Hc; simpl.
  rewrite <- app_assoc; simpl. rewrite Hx; simpl.
  unfold events_done. repeat (rewrite <- app_assoc; simpl). reflexivity.
Qed.

Lemma index_post_run srv m req w :
  method req = "POST" ->
  post_run srv m req w (outcome srv m req w) (events srv m req w).
Proof.
  intros Hm. unfold outcome, events.
  destruct (read_form (form req) defaults) as [c|e] eqn:Hr.
  - destruct (srv_connect srv (log w) (DB_CONN m)) as [msg|] eqn:Hc.
    + rewrite (index_post_refused srv m req w c msg Hm Hr Hc); simpl.
      rewrite new_events_emit. now apply run_refused with c.
    + destruct (srv_execute srv (log_at_query m w) select_fake_users (query_args c))
        as [msg|rows] eqn:Hx.
      * rewrite (index_post_failed srv m req w c msg Hm Hr Hc Hx); simpl.
        rewrite new_events_app. now apply run_failed.
      * rewrite (index_post_done srv m req w c rows Hm Hr Hc Hx); simpl.
        rewrite new_events_app. now apply run_done.
  - rewrite (index_post_raised srv m req w e Hm Hr); simpl.
    rewrite new_events_same. now apply run_bad_form.
Qed.

(** Whatever the server does, a POST request that got past the form sends
    at most the one statement, with the locals as its arguments, and
    renders nothing but the locals. *)
Lemma post_calls srv m req w c :
  method req = "POST" ->
  read_form (form req) defaults = Ok c ->
  forall h sql args,
    In (EvExecute h sql args) (events srv m req w) ->
    h = next_handle w /\ sql = select_fake_users /\ args = query_args c.
Proof.
  intros Hm Hr h sql args Hin.
  destruct (index_post_run srv m req w Hm) as [e He|c' msg Hr'|c' msg Hr'|c' rows Hr'];
    try (rewrite Hr in Hr'; injection Hr' as <-); try congruence;
    simpl in Hin; intuition (try discriminate);
    match goal with H : _ = EvExecute _ _ _ |- _ => now inversion H end.
Qed.

Lemma post_calls_accepted srv m req w c :
  method req = "POST" ->
  read_form (form req) defaults = Ok c ->
  accepts srv m w ->
  db_calls (events srv m req w) = [(select_fake_users, query_args c)].
Proof.
  intros Hm Hr Ha.
  destruct (index_post_run srv m req w Hm) as [e He|c' msg Hr' Hc|c' msg Hr'|c' rows Hr'];
    try (rewrite Hr in Hr'; injection Hr' as <-);
    solve [reflexivity | unfold accepts in *; congruence].
Qed.

Lemma post_rendered srv m req w c t ctx :
  method req = "POST" ->
  read_form (form req) defaults = Ok c ->
  outcome srv m req w = Ok (Rendered t ctx) ->
  t = "index.html" /\ locale ctx = locale c /\ seed ctx = seed c /\
  batch_size ctx = batch_size c /\ batch_index ctx = batch_index c.
Proof.
  intros Hm Hr Ho.
  destruct (index_post_run srv m req w Hm) as [e He|c' msg Hr'|c' msg Hr'|c' rows Hr'];
    try discriminate.
  rewrite Hr in Hr'; injection Hr' as <-.
  injection Ho as <- <-. simpl. tauto.
Qed.

Lemma post_done srv m req w c rows :
  method req = "POST" ->
  read_form (form req) defaults = Ok c ->
  accepts srv m w ->
  answers srv m c w rows ->
  outcome srv m req w = Ok (Rendered "index.html" (with_users c rows)).
Proof.
  intros Hm Hr Ha Hx. unfold outcome.
  now rewrite (index_post_done srv m req w c rows Hm Hr Ha Hx).
Qed.

(** ** Reading the form *)

Lemma read_form_next f s b k :
  py_int (form_get f "seed" (VInt 123)) = Ok s ->
  py_int (form_get f "batch_size" (VInt 10)) = Ok b ->
  form_get f "action" (VStr "generate") = VStr "next" ->
  py_int (form_get f "batch_index" (VInt 0)) = Ok k ->
  read_form f defaults =
    Ok {| locale := form_get f "locale" (VStr "en_US"); seed := s;
          batch_size := b; batch_index := k + 1; users := [] |}.
Proof.
  intros Hs Hb Ha Hk. unfold read_form; simpl.
  rewrite Hs; simpl. rewrite Hb; simpl. rewrite Ha.
  destruct (decide (VStr "next" = VStr "next")) as [_|Hne]; [|congruence].
  rewrite Hk. reflexivity.
Qed.

Lemma read_form_other f s b :
  py_int (form_get f "seed" (VInt 123)) = Ok s ->
  py_int (form_get f "batch_size" (VInt 10)) = Ok b ->
  form_get f "action" (VStr "generate") <> VStr "next" ->
  read_form f defaults =
    Ok {| locale := form_get f "locale" (VStr "en_US"); seed := s;
          batch_size := b; batch_index := 0; users := [] |}.
Proof.
  intros Hs Hb Ha. unfold read_form; simpl.
  rewrite Hs; simpl. rewrite Hb; simpl.
  destruct (decide (form_get f "action" (VStr "generate") = VStr "next")); [congruence|].
  reflexivity.
Qed.

Lemma post_at_most_one_call srv m req w :
  method req = "POST" ->
  (length (db_calls (events srv m req w)) <= 1)%nat.
Proof.
  intros Hm. destruct (index_post_run srv m req w Hm); simpl; lia.
Qed.

(** ** Navigation *)

(** C1.  A POST request whose fields parse as integers, whose action is
    "next" and whose batch_index is [k]: the handler sets batch_index to
    [k + 1]; the statement it sends has [k + 1] as its fourth argument, and
    that statement is sent once the connection is open; the page it renders
    carries [k + 1], and it is rendered once the server has answered. *)
Theorem next_increments_batch_index srv m req w s b k :
  method req = "POST" ->
  py_int (form_get (form req) "seed" (VInt 123)) = Ok s ->
  py_int (form_get (form req) "batch_size" (VInt 10)) = Ok b ->
  form_get (form req) "action" (VStr "generate") = VStr "next" ->
  py_int (form_get (form req) "batch_index" (VInt 0)) = Ok k ->
  let c := {| locale := form_get (form req) "locale" (VStr "en_US"); seed := s;
              batch_size := b; batch_index := k + 1; users := [] |} in
  read_form (form req) defaults = Ok c /\
  (forall h sql args,
      In (EvExecute h sql args) (events srv m req w) ->
      args !! 3%nat = Some (VInt (k + 1))) /\
  (accepts srv m w ->
   db_calls (events srv m req w) =
     [(select_fake_users, [locale c; VInt s; VInt b; VInt (k + 1)])]) /\
  (forall t ctx,
      outcome srv m req w = Ok (Rendered t ctx) -> batch_index ctx = k + 1) /\
  (forall rows,
      accepts srv m w -> answers srv m c w rows ->
      outcome srv m req w =
        Ok (Rendered "index.html"
              {| locale := locale c; seed := s; batch_size := b;
                 batch_index := k + 1; users := rows |})).
Proof.
  intros Hm Hs Hb Ha Hk c.
  assert (Hr : read_form (form req) defaults = Ok c)
    by (apply read_form_next; assumption).
  split; [exact Hr|]. split; [|split; [|split]].
  - intros h sql args Hin.
    destruct (post_calls srv m req w c Hm Hr h sql args Hin) as (_ & _ & ->).
    reflexivity.
  - intros Hacc. apply (post_calls_accepted srv m req w c Hm Hr Hacc).
  - intros t ctx Ho.
    destruct (post_rendered srv m req w c t ctx Hm Hr Ho) as (_ & _ & _ & _ & ->).
    reflexivity.
  - intros rows Hacc Hans. apply (post_done srv m req w c rows Hm Hr Hacc Hans).
Qed.

(** The scenario of the specification: batch_size 10, batch_index 3,
    action "next". *)
Lemma next_increments_batch_index_witness :
  db_calls (events good_server sample_module req_next_3 loaded_world) =
    [(select_fake_users, [VStr "en_US"; VInt 123; VInt 10; VInt 4])] /\
  outcome good_server sample_module req_next_3 loaded_world =
    Ok (Rendered "index.html"
          {| locale := VStr "en_US"; seed := 123; batch_size := 10;
             batch_index := 4; users := sample_rows |}).
Proof.
  destruct (next_increments_batch_index good_server sample_module req_next_3
              loaded_world 123 10 3 eq_refl eq_refl eq_refl eq_refl eq_refl)
    as (_ & _ & Hcall & _ & Hpage).
  split.
  - apply Hcall. reflexivity.
  - apply Hpage; reflexivity.
Defined.

Lemma form_get_cons_other (f : form_data) (k key v : string) (d : value) :
  k <> key -> form_get ((k, v) :: f) key d = form_get f key d.
Proof.
  intros Hne. unfold form_get; simpl.
  destruct (String.eqb_spec k key); [contradiction|reflexivity].
Qed.

(** C2.  A POST request whose fields parse as integers and whose action is
    anything but "next", a missing action included: the handler sets
    batch_index to 0, and no batch_index in the form changes that.  The
    statement it sends and the page it renders carry 0. *)
Theorem other_action_resets_batch_index srv m req w s b :
  method req = "POST" ->
  py_int (form_get (form req) "seed" (VInt 123)) = Ok s ->
  py_int (form_get (form req) "batch_size" (VInt 10)) = Ok b ->
  form_get (form req) "action" (VStr "generate") <> VStr "next" ->
  let c := {| locale := form_get (form req) "locale" (VStr "en_US"); seed := s;
              batch_size := b; batch_index := 0; users := [] |} in
  read_form (form req) defaults = Ok c /\
  (forall f',
      (forall key d, key <> "batch_index" -> form_get f' key d = form_get (form req) key d) ->
      read_form f' defaults = Ok c) /\
  (forall h sql args,
      In (EvExecute h sql args) (events srv m req w) ->
      args !! 3%nat = Some (VInt 0)) /\
  (forall t ctx,
      outcome srv m req w = Ok (Rendered t ctx) -> batch_index ctx = 0).
Proof.
  intros Hm Hs Hb Ha c.
  assert (Hr : read_form (form req) defaults = Ok c)
    by (apply read_form_other; assumption).
  split; [exact Hr|]. split; [|split].
  - intros f' Hsame. subst c.
    rewrite <- (Hsame "locale" (VStr "en_US")) by discriminate.
    apply read_form_other.
    + rewrite Hsame by discriminate. exact Hs.
    + rewrite Hsame by discriminate. exact Hb.
    + rewrite Hsame by discriminate. exact Ha.
  - intros h sql args Hin.
    destruct (post_calls srv m req w c Hm Hr h sql args Hin) as (_ & _ & ->).
    reflexivity.
  - intros t ctx Ho.
    destruct (post_rendered srv m req w c t ctx Hm Hr Ho) as (_ & _ & _ & _ & ->).
    reflexivity.
Qed.

(** No action field and batch_index 7, then a batch_index that is no
    number at all. *)
Lemma other_action_resets_batch_index_witness :
  read_form [("seed", "42"); ("batch_index", "7")] defaults =
    Ok {| locale := VStr "en_US"; seed := 42; batch_size := 10;
          batch_index := 0; users := [] |} /\
  read_form [("batch_index", "seven"); ("seed", "42"); ("batch_index", "7")] defaults =
    Ok {| locale := VStr "en_US"; seed := 42; batch_size := 10;
          batch_index := 0; users := [] |}.
Proof.
  destruct (other_action_resets_batch_index good_server sample_module
              (post [("seed", "42"); ("batch_index", "7")]) loaded_world 42 10
              eq_refl eq_refl eq_refl ltac:(discriminate))
    as (Hr & Hany & _).
  split; [exact Hr|].
  apply Hany. intros key d Hne. apply form_get_cons_other. congruence.
Defined.

(** ** GET *)

(** C3.  A GET request: no call on the database, and the page is rendered
    with an empty row list and the defaults locale "en_US", seed 123,
    batch_size 10, batch_index 0. *)
Theorem get_renders_defaults srv m req w :
  method req = "GET" ->
  index srv m req w =
    (Ok (Rendered "index.html"
           {| locale := VStr "en_US"; seed := 123; batch_size := 10;
              batch_index := 0; users := [] |}), w) /\
  events srv m req w = [] /\
  db_calls (events srv m req w) = [] /\
  connect_attempts (events srv m req w) = [].
Proof.
  intros Hm.
  assert (Hi : index srv m req w = (Ok (Rendered "index.html" defaults), w))
    by (apply index_not_post; rewrite Hm; reflexivity).
  assert (He : events srv m req w = [])
    by (unfold events; rewrite Hi; apply new_events_same).
  rewrite He. repeat split. exact Hi.
Qed.

(** A GET request is answered the same way against a server that is
    down, whatever it carries. *)
Lemma get_renders_defaults_witness :
  index down_server sample_module
    {| method := "GET"; form := [("seed", "abc")] |} loaded_world =
    (Ok (Rendered "index.html"
           {| locale := VStr "en_US"; seed := 123; batch_size := 10;
              batch_index := 0; users := [] |}), loaded_world).
Proof.
  apply (get_renders_defaults down_server sample_module
           {| method := "GET"; form := [("seed", "abc")] |} loaded_world eq_refl).
Defined.

(** ** The query *)

(** C4.  A POST request whose fields parse: the handler sends one
    statement, the fixed text with four placeholders, with locale, seed,
    batch_size and batch_index (as updated by the navigation) beside it in
    that order, and renders the rows the server answered, as they came,
    with the same four values. *)
Theorem post_issues_one_parameterized_query srv m req w c :
  method req = "POST" ->
  read_form (form req) defaults = Ok c ->
  (forall h sql args,
      In (EvExecute h sql args) (events srv m req w) ->
      sql = "SELECT * FROM generate_fake_users(%s, %s, %s, %s)" /\
      args = [locale c; VInt (seed c); VInt (batch_size c); VInt (batch_index c)]) /\
  (length (db_calls (events srv m req w)) <= 1)%nat /\
  (accepts srv m w ->
   db_calls (events srv m req w) =
     [("SELECT * FROM generate_fake_users(%s, %s, %s, %s)",
       [locale c; VInt (seed c); VInt (batch_size c); VInt (batch_index c)])]) /\
  (forall rows,
      accepts srv m w -> answers srv m c w rows ->
      outcome srv m req w =
        Ok (Rendered "index.html"
              {| locale := locale c; seed := seed c; batch_size := batch_size c;
                 batch_index := batch_index c; users := rows |})).
Proof.
  intros Hm Hr. split; [|split; [|split]].
  - intros h sql args Hin.
    destruct (post_calls srv m req w c Hm Hr h sql args Hin) as (_ & -> & ->).
    split; reflexivity.
  - apply post_at_most_one_call, Hm.
  - intros Hacc. apply (post_calls_accepted srv m req w c Hm Hr Hacc).
  - intros rows Hacc Hans. apply (post_done srv m req w c rows Hm Hr Hacc Hans).
Qed.

(** The scenario of the specification: locale fr_FR, seed 42, batch_size
    5, batch_index 0, action "generate". *)
Lemma post_issues_one_parameterized_query_witness :
  db_calls (events good_server sample_module req_generate_fr loaded_world) =
    [("SELECT * FROM generate_fake_users(%s, %s, %s, %s)",
      [VStr "fr_FR"; VInt 42; VInt 5; VInt 0])] /\
  outcome good_server sample_module req_generate_fr loaded_world =
    Ok (Rendered "index.html"
          {| locale := VStr "fr_FR"; seed := 42; batch_size := 5;
             batch_index := 0; users := sample_rows |}).
Proof.
  destruct (post_issues_one_parameterized_query good_server sample_module
              req_generate_fr loaded_world
              {| locale := VStr "fr_FR"; seed := 42; batch_size := 5;
                 batch_index := 0; users := [] |} eq_refl eq_refl)
    as (_ & _ & Hcall & Hpage).
  split.
  - apply Hcall. reflexivity.
  - apply Hpage; reflexivity.
Defined.

(** ** The batch index *)

Lemma form_get_found f key d s :
  form_lookup f key = Some s -> form_get f key d = VStr s.
Proof. intros H. unfold form_get. now rewrite H. Qed.

Lemma form_get_absent f key d :
  form_lookup f key = None -> form_get f key d = d.
Proof. intros H. unfold form_get. now rewrite H. Qed.

(** [int] on a form field with an integer default: the integer, or a
    [ValueError] on the text that was sent. *)
Lemma py_int_form_get f key d :
  (exists z, py_int (form_get f key (VInt d)) = Ok z) \/
  (exists lit, form_lookup f key = Some lit /\ PyInt.parse lit = None /\
               py_int (form_get f key (VInt d)) = Raised (ValueError lit)).
Proof.
  unfold form_get. destruct (form_lookup f key) as [s|]; simpl.
  - destruct (PyInt.parse s) as [z|] eqn:Hp.
    + left. now exists z.
    + right. now exists s.
  - left. now exists d.
Qed.

Lemma read_form_inv f c :
  read_form f defaults = Ok c ->
  locale c = form_get f "locale" (VStr "en_US") /\
  py_int (form_get f "seed" (VInt 123)) = Ok (seed c) /\
  py_int (form_get f "batch_size" (VInt 10)) = Ok (batch_size c) /\
  users c = [] /\
  ((form_get f "action" (VStr "generate") <> VStr "next" /\ batch_index c = 0) \/
   (form_get f "action" (VStr "generate") = VStr "next" /\
    exists k, py_int (form_get f "batch_index" (VInt 0)) = Ok k /\
              batch_index c = k + 1)).
Proof.
  unfold read_form; simpl.
  destruct (py_int (form_get f "seed" (VInt 123))) as [s|e]; simpl; [|discriminate].
  destruct (py_int (form_get f "batch_size" (VInt 10))) as [b|e]; simpl; [|discriminate].
  destruct (decide (form_get f "action" (VStr "generate") = VStr "next")) as [Ha|Ha].
  - destruct (py_int (form_get f "batch_index" (VInt 0))) as [k|e]; simpl; [|discriminate].
    intros [= <-]; simpl. repeat split. right. split; [exact Ha|]. now exists k.
  - simpl. intros [= <-]; simpl. repeat split. now left.
Qed.

(** The batch index the handler uses for the form field "-5" and action
    "next" is -4: it is sent to the database and rendered. *)
Lemma batch_index_can_be_negative :
  read_form (form req_next_minus_5) defaults =
    Ok {| locale := VStr "en_US"; seed := 123; batch_size := 10;
          batch_index := -4; users := [] |} /\
  db_calls (events good_server sample_module req_next_minus_5 loaded_world) =
    [(select_fake_users, [VStr "en_US"; VInt 123; VInt 10; VInt (-4)])] /\
  outcome good_server sample_module req_next_minus_5 loaded_world =
    Ok (Rendered "index.html"
          {| locale := VStr "en_US"; seed := 123; batch_size := 10;
             batch_index := -4; users := sample_rows |}) /\
  uses_batch_index good_server sample_module req_next_minus_5 loaded_world (-4) /\
  ~ 0 <= -4.
Proof.
  split; [reflexivity|]. split; [reflexivity|]. split; [reflexivity|]. split; [|lia].
  right. eexists _, _. split; [reflexivity|reflexivity].
Qed.

(** C5, amended.  The batch index the handler uses is 0, or, for a POST
    request with action "next", exactly one more than the batch_index
    [k] the client sent; so it is not negative exactly when it is 0 or
    [k >= -1].  The handler does not check what the client sent. *)
Theorem batch_index_zero_or_successor srv m req w bi :
  uses_batch_index srv m req w bi ->
  bi = 0 \/
  (method req = "POST" /\
   form_get (form req) "action" (VStr "generate") = VStr "next" /\
   exists k, py_int (form_get (form req) "batch_index" (VInt 0)) = Ok k /\
             bi = k + 1 /\ (0 <= bi <-> -1 <= k)).
Proof.
  intros Huse. unfold uses_batch_index in Huse.
  destruct (String.eqb_spec (method req) "POST") as [Hm|Hm].
  - assert (Hc : exists c, read_form (form req) defaults = Ok c /\ batch_index c = bi).
    { destruct (index_post_run srv m req w Hm) as [e He|c msg Hr|c msg Hr|c rows Hr];
        destruct Huse as [(h & sql & args & Hin & Hbi)|(t & ctx & Ho & Hbi)];
        try discriminate; try (now destruct Hin); exists c; (split; [exact Hr|]).
      - simpl in Hin. destruct Hin as [|[|[Hin|Hin]]]; try discriminate.
        + injection Hin as <- <- <-. simpl in Hbi. congruence.
        + simpl in Hin. intuition discriminate.
      - simpl in Hin. destruct Hin as [|[|[Hin|Hin]]]; try discriminate.
        + injection Hin as <- <- <-. simpl in Hbi. congruence.
        + simpl in Hin. intuition discriminate.
      - injection Ho as <- <-. exact Hbi. }
    destruct Hc as (c & Hr & <-).
    destruct (read_form_inv (form req) c Hr) as (_ & _ & _ & _ & [[_ H0]|[Ha (k & Hk & Hbi)]]).
    + now left.
    + right. split; [exact Hm|]. split; [exact Ha|]. exists k.
      split; [exact Hk|]. split; [exact Hbi|]. lia.
  - left.
    assert (Hi : index srv m req w = (Ok (Rendered "index.html" defaults), w)).
    { apply index_not_post. now destruct (String.eqb_spec (method req) "POST"). }
    destruct Huse as [(h & sql & args & Hin & Hbi)|(t & ctx & Ho & Hbi)].
    + unfold events in Hin. rewrite Hi in Hin; simpl in Hin.
      rewrite new_events_same in Hin. destruct Hin.
    + unfold outcome in Ho. rewrite Hi in Ho; simpl in Ho.
      injection Ho as <- <-. now symmetry.
Qed.

(** For batch_index 3 and action "next" the handler uses 4. *)
Lemma batch_index_zero_or_successor_witness :
  uses_batch_index good_server sample_module req_next_3 loaded_world 4 /\
  (4 = 0 \/
   (method req_next_3 = "POST" /\
    form_get (form req_next_3) "action" (VStr "generate") = VStr "next" /\
    exists k, py_int (form_get (form req_next_3) "batch_index" (VInt 0)) = Ok k /\
              4 = k + 1 /\ (0 <= 4 <-> -1 <= k))).
Proof.
  assert (Huse : uses_batch_index good_server sample_module req_next_3 loaded_world 4).
  { right. eexists _, _. split; reflexivity. }
  split; [exact Huse|].
  exact (batch_index_zero_or_successor good_server sample_module req_next_3
           loaded_world 4 Huse).
Defined.

(** ** Fields that are no integers *)

Lemma read_form_value_error f :
  non_numeric_field f ->
  exists lit, PyInt.parse lit = None /\ read_form f defaults = Raised (ValueError lit).
Proof.
  intros Hbad. unfold read_form; simpl.
  destruct (py_int_form_get f "seed" 123) as [[s Hs]|(lit & _ & Hp & Hs)];
    rewrite Hs; simpl; [|now exists lit].
  destruct (py_int_form_get f "batch_size" 10) as [[b Hb]|(lit & _ & Hp & Hb)];
    rewrite Hb; simpl; [|now exists lit].
  destruct Hbad as [(x & Hl & Hp)|[(x & Hl & Hp)|(Ha & x & Hl & Hp)]].
  - rewrite (form_get_found _ _ _ _ Hl) in Hs. simpl in Hs. rewrite Hp in Hs. discriminate.
  - rewrite (form_get_found _ _ _ _ Hl) in Hb. simpl in Hb. rewrite Hp in Hb. discriminate.
  - rewrite (form_get_found _ _ _ _ Ha).
    destruct (decide (VStr "next" = VStr "next")) as [_|Hne]; [|congruence].
    rewrite (form_get_found _ _ _ _ Hl). simpl. rewrite Hp. simpl. now exists x.
Qed.

(** C6.  A POST request in which seed, or batch_size, or batch_index under
    action "next", is text that is no integer: the conversion raises
    [ValueError], nothing catches it, the database has not been called and
    no page, so no row list, comes back. *)
Theorem non_numeric_input_fails srv m req w :
  method req = "POST" ->
  non_numeric_field (form req) ->
  exists lit,
    PyInt.parse lit = None /\
    index srv m req w = (Raised (ValueError lit), w) /\
    events srv m req w = [] /\
    (forall t ctx, outcome srv m req w <> Ok (Rendered t ctx)).
Proof.
  intros Hm Hbad.
  destruct (read_form_value_error (form req) Hbad) as (lit & Hp & Hr).
  exists lit. split; [exact Hp|].
  pose proof (index_post_raised srv m req w _ Hm Hr) as Hi.
  split; [exact Hi|]. split.
  - unfold events. rewrite Hi. apply new_events_same.
  - intros t ctx. unfold outcome. rewrite Hi. discriminate.
Qed.

(** The seed "abc". *)
Lemma non_numeric_input_fails_witness :
  exists lit,
    PyInt.parse lit = None /\
    index good_server sample_module (post [("seed", "abc"); ("action", "next")])
      loaded_world = (Raised (ValueError lit), loaded_world).
Proof.
  destruct (non_numeric_input_fails good_server sample_module
              (post [("seed", "abc"); ("action", "next")]) loaded_world eq_refl)
    as (lit & Hp & Hi & _).
  - left. exists "abc". split; reflexivity.
  - exists lit. split; assumption.
Defined.

(** ** Defaults *)

(** C9.  In a POST request the defaults of seed (123) and batch_size (10)
    stand in only for a field that is absent: a field that is sent gives
    the integer its text reads as, and a field sent empty fails the
    request with the conversion error. *)
Theorem defaults_only_for_absent_fields srv m req w :
  method req = "POST" ->
  (form_lookup (form req) "seed" = None ->
   py_int (form_get (form req) "seed" (VInt (seed defaults))) = Ok 123) /\
  (form_lookup (form req) "batch_size" = None ->
   py_int (form_get (form req) "batch_size" (VInt (batch_size defaults))) = Ok 10) /\
  (forall c,
      read_form (form req) defaults = Ok c ->
      match form_lookup (form req) "seed" with
      | None => seed c = 123
      | Some s => PyInt.parse s = Some (seed c)
      end /\
      match form_lookup (form req) "batch_size" with
      | None => batch_size c = 10
      | Some s => PyInt.parse s = Some (batch_size c)
      end) /\
  (form_lookup (form req) "seed" = Some "" ->
   index srv m req w = (Raised (ValueError ""), w)) /\
  (form_lookup (form req) "batch_size" = Some "" ->
   exists lit, PyInt.parse lit = None /\
               index srv m req w = (Raised (ValueError lit), w)).
Proof.
  intros Hm. split; [|split; [|split; [|split]]].
  - intros Hl. now rewrite (form_get_absent _ _ _ Hl).
  - intros Hl. now rewrite (form_get_absent _ _ _ Hl).
  - intros c Hr.
    destruct (read_form_inv (form req) c Hr) as (_ & Hs & Hb & _).
    unfold form_get in Hs, Hb. split.
    + destruct (form_lookup (form req) "seed") as [s|]; simpl in Hs.
      * destruct (PyInt.parse s); congruence.
      * congruence.
    + destruct (form_lookup (form req) "batch_size") as [s|]; simpl in Hb.
      * destruct (PyInt.parse s); congruence.
      * congruence.
  - intros Hl. apply index_post_raised; [exact Hm|].
    unfold read_form; simpl. now rewrite (form_get_found _ _ _ _ Hl).
  - intros Hl.
    destruct (read_form_value_error (form req)) as (lit & Hp & Hr).
    { right; left. exists "". split; [exact Hl|reflexivity]. }
    exists lit. split; [exact Hp|]. now apply index_post_raised.
Qed.

(** No seed at all, and then a seed sent empty. *)
Lemma defaults_only_for_absent_fields_witness :
  py_int (form_get [("batch_size", "5")] "seed" (VInt (seed defaults))) = Ok 123 /\
  index good_server sample_module (post [("seed", ""); ("batch_size", "5")])
    loaded_world = (Raised (ValueError ""), loaded_world).
Proof.
  split.
  - apply (defaults_only_for_absent_fields good_server sample_module
             (post [("batch_size", "5")]) loaded_world eq_refl).
    reflexivity.
  - apply (defaults_only_for_absent_fields good_server sample_module
             (post [("seed", ""); ("batch_size", "5")]) loaded_world eq_refl).
    reflexivity.
Defined.

(** C10.  A POST request with action "next" and no batch_index field: the
    conversion is applied to the inner default 0, so batch_index is 1;
    the statement the handler sends has 1 as its fourth argument and the
    page it renders carries 1. *)
Theorem next_without_batch_index srv m req w :
  method req = "POST" ->
  form_lookup (form req) "action" = Some "next" ->
  form_lookup (form req) "batch_index" = None ->
  py_int (form_get (form req) "batch_index" (VInt 0)) = Ok 0 /\
  (forall c, read_form (form req) defaults = Ok c -> batch_index c = 1) /\
  (forall h sql args,
      In (EvExecute h sql args) (events srv m req w) ->
      args !! 3%nat = Some (VInt 1)) /\
  (forall t ctx,
      outcome srv m req w = Ok (Rendered t ctx) -> batch_index ctx = 1) /\
  (forall s b,
      py_int (form_get (form req) "seed" (VInt 123)) = Ok s ->
      py_int (form_get (form req) "batch_size" (VInt 10)) = Ok b ->
      let c := {| locale := form_get (form req) "locale" (VStr "en_US"); seed := s;
                  batch_size := b; batch_index := 1; users := [] |} in
      read_form (form req) defaults = Ok c /\
      (accepts srv m w ->
       db_calls (events srv m req w) =
         [(select_fake_users, [locale c; VInt s; VInt b; VInt 1])]) /\
      (forall rows,
          accepts srv m w -> answers srv m c w rows ->
          outcome srv m req w =
            Ok (Rendered "index.html"
                  {| locale := locale c; seed := s; batch_size := b;
                     batch_index := 1; users := rows |}))).
Proof.
  intros Hm Ha Hl.
  assert (Hk : py_int (form_get (form req) "batch_index" (VInt 0)) = Ok 0)
    by now rewrite (form_get_absent _ _ _ Hl).
  assert (Hact : form_get (form req) "action" (VStr "generate") = VStr "next")
    by now apply form_get_found.
  assert (Hone : forall c, read_form (form req) defaults = Ok c -> batch_index c = 1).
  { intros c Hr.
    destruct (read_form_inv (form req) c Hr) as (_ & _ & _ & _ & [[Hne _]|[_ (k & Hk' & ->)]]).
    - contradiction.
    - rewrite Hk in Hk'. injection Hk' as <-. reflexivity. }
  split; [exact Hk|]. split; [exact Hone|]. split; [|split].
  - intros h sql args Hin.
    destruct (read_form (form req) defaults) as [c|e] eqn:Hr.
    + destruct (post_calls srv m req w c Hm Hr h sql args Hin) as (_ & _ & ->).
      simpl. now rewrite (Hone c).
    + unfold events in Hin. rewrite (index_post_raised srv m req w e Hm Hr) in Hin.
      simpl in Hin. rewrite new_events_same in Hin. destruct Hin.
  - intros t ctx Ho.
    destruct (read_form (form req) defaults) as [c|e] eqn:Hr.
    + destruct (post_rendered srv m req w c t ctx Hm Hr Ho) as (_ & _ & _ & _ & ->).
      now apply Hone.
    + unfold outcome in Ho. rewrite (index_post_raised srv m req w e Hm Hr) in Ho.
      discriminate.
  - intros s b Hs Hb c.
    assert (Hr : read_form (form req) defaults = Ok c).
    { pose proof (read_form_next (form req) s b 0 Hs Hb Hact Hk) as Hr. exact Hr. }
    split; [exact Hr|]. split.
    + intros Hacc. apply (post_calls_accepted srv m req w c Hm Hr Hacc).
    + intros rows Hacc Hans. apply (post_done srv m req w c rows Hm Hr Hacc Hans).
Qed.

(** Action "next" alone. *)
Lemma next_without_batch_index_witness :
  db_calls (events good_server sample_module req_next_only loaded_world) =
    [(select_fake_users, [VStr "en_US"; VInt 123; VInt 10; VInt 1])] /\
  outcome good_server sample_module req_next_only loaded_world =
    Ok (Rendered "index.html"
          {| locale := VStr "en_US"; seed := 123; batch_size := 10;
             batch_index := 1; users := sample_rows |}).
Proof.
  destruct (next_without_batch_index good_server sample_module req_next_only
              loaded_world eq_refl eq_refl eq_refl) as (_ & _ & _ & _ & Hrun).
  destruct (Hrun 123 10 eq_refl eq_refl) as (_ & Hcall & Hpage).
  split.
  - apply Hcall. reflexivity.
  - apply Hpage; reflexivity.
Defined.

(** ** The connection *)

Lemma post_events_handles srv m req w ev h :
  method req = "POST" ->
  In ev (events srv m req w) -> In h (event_handles ev) -> h = next_handle w.
Proof.
  intros Hm Hev Hh.
  destruct (index_post_run srv m req w Hm); simpl in Hev;
    repeat (destruct Hev as [<-|Hev]; [simpl in Hh; intuition congruence|]);
    destruct Hev.
Qed.

(** A POST request whose seed is no integer: the handler asks for no
    connection at all. *)
Lemma post_without_connection :
  method req_seed_abc = "POST" /\
  index good_server sample_module req_seed_abc loaded_world =
    (Raised (ValueError "abc"), loaded_world) /\
  connect_attempts (events good_server sample_module req_seed_abc loaded_world) = [] /\
  opened (events good_server sample_module req_seed_abc loaded_world) = [] /\
  length (opened (events good_server sample_module req_seed_abc loaded_world)) <> 1%nat.
Proof.
  repeat split; discriminate.
Qed.

(** C7, amended.  A POST request whose fields do not parse asks for no
    connection.  A POST request whose fields parse asks for exactly one,
    through [get_db_conn]; when the server grants it, it is a new
    connection, the handler works on no other, and it is closed last of
    all, whether the statement was answered or raised; the only statement
    sent is the SELECT. *)
Theorem one_scoped_connection_per_parsed_post srv m req w :
  method req = "POST" ->
  let evs := events srv m req w in
  let h := next_handle w in
  match read_form (form req) defaults with
  | Raised _ => evs = []
  | Ok c =>
      connect_attempts evs = [DB_CONN m] /\
      (forall h' sql args, In (EvExecute h' sql args) evs -> sql = select_fake_users) /\
      (forall ev h', In ev evs -> In h' (event_handles ev) -> h' = h) /\
      (wf_world w -> forall ev, In ev (log w) -> ~ In h (event_handles ev)) /\
      match srv_connect srv (log w) (DB_CONN m) with
      | Some _ => opened evs = [] /\ closed evs = []
      | None =>
          opened evs = [h] /\ closed evs = [h] /\
          head evs = Some (EvConnect (DB_CONN m) h) /\
          last evs = Some (EvClose h) /\
          match srv_execute srv (log_at_query m w) select_fake_users (query_args c) with
          | inl msg =>
              outcome srv m req w = Raised (PsycopgError msg) /\
              evs = events_failed m c h
          | inr rows =>
              outcome srv m req w = Ok (Rendered "index.html" (with_users c rows)) /\
              evs = events_done m c h
          end
      end
  end.
Proof.
  intros Hm evs h. subst evs h.
  pose proof (post_events_handles srv m req w) as Hhandles.
  assert (Hfresh : wf_world w ->
            forall ev, In ev (log w) -> ~ In (next_handle w) (event_handles ev)).
  { intros Hwf ev Hev Hin. specialize (Hwf ev _ Hev Hin). lia. }
  destruct (index_post_run srv m req w Hm) as [e Hr|c msg Hr Hc|c msg Hr Hc Hx|c rows Hr Hc Hx];
    rewrite Hr.
  - reflexivity.
  - rewrite Hc. split; [reflexivity|]. split.
    { intros h' sql args Hin. simpl in Hin. intuition discriminate. }
    split; [|split; [exact Hfresh|split; reflexivity]].
    intros ev h' Hev Hin. simpl in Hev. destruct Hev as [<-|[]]. destruct Hin.
  - unfold accepts in Hc. rewrite Hc, Hx. split; [reflexivity|]. split.
    { intros h' sql args Hin. simpl in Hin.
      destruct Hin as [|[|[Hin|Hin]]]; try discriminate.
      - now injection Hin as _ <- _.
      - simpl in Hin. intuition discriminate. }
    split; [|split; [exact Hfresh|]].
    { intros ev h' Hev Hin. simpl in Hev.
      repeat (destruct Hev as [<-|Hev]; [simpl in Hin; intuition congruence|]).
      destruct Hev. }
    repeat split; reflexivity.
  - unfold accepts in Hc. unfold answers in Hx. rewrite Hc, Hx.
    split; [reflexivity|]. split.
    { intros h' sql args Hin. simpl in Hin.
      destruct Hin as [|[|[Hin|Hin]]]; try discriminate.
      - now injection Hin as _ <- _.
      - simpl in Hin. intuition discriminate. }
    split; [|split; [exact Hfresh|]].
    { intros ev h' Hev Hin. simpl in Hev.
      repeat (destruct Hev as [<-|Hev]; [simpl in Hin; intuition congruence|]).
      destruct Hev. }
    repeat split; reflexivity.
Qed.

(** A statement that the server fails: the connection is opened, rolled
    back and closed. *)
Lemma one_scoped_connection_per_parsed_post_witness :
  events failing_server sample_module req_seed_42 loaded_world =
    [EvConnect "dbname=fake" 1%nat; EvCursor 1%nat;
     EvExecute 1%nat select_fake_users [VStr "en_US"; VInt 42; VInt 10; VInt 0];
     EvCursorClose 1%nat; EvRollback 1%nat; EvClose 1%nat].
Proof.
  pose proof (one_scoped_connection_per_parsed_post failing_server sample_module
                req_seed_42 loaded_world eq_refl) as H.
  simpl in H. destruct H as (_ & _ & _ & _ & _ & _ & _ & _ & _ & H). exact H.
Defined.

(** ** Start-up *)

(** C8.  When the DB_CONN the module reads from the environment is absent
    or empty, loading the module raises [RuntimeError] before anything
    else happens, and the process serves no request. *)
Theorem missing_DB_CONN_is_fatal srv (load_dotenv : environ -> environ)
    (os_environ : environ) reqs w :
  load_dotenv os_environ !! "DB_CONN" = None \/
  load_dotenv os_environ !! "DB_CONN" = Some "" ->
  module_init srv load_dotenv os_environ w =
    (Raised (RuntimeError "DB_CONN environment variable is not set"), w) /\
  main srv load_dotenv os_environ reqs w =
    (Raised (RuntimeError "DB_CONN environment variable is not set"), [], w).
Proof.
  intros Henv.
  assert (Hinit : module_init srv load_dotenv os_environ w =
            (Raised (RuntimeError "DB_CONN environment variable is not set"), w)).
  { unfold module_init. destruct Henv as [-> | ->]; reflexivity. }
  split; [exact Hinit|]. unfold main. rewrite Hinit. reflexivity.
Qed.

(** No DB_CONN in the environment and no file to load it from; two
    requests are waiting. *)
Lemma missing_DB_CONN_is_fatal_witness :
  main good_server (fun e => e) (∅ : environ)
    [post [("action", "next")]; {| method := "GET"; form := [] |}] empty_world =
    (Raised (RuntimeError "DB_CONN environment variable is not set"), [], empty_world).
Proof.
  apply (missing_DB_CONN_is_fatal good_server (fun e => e) ∅).
  left. reflexivity.
Defined.

(** ** The process as a whole *)

Lemma served_from_refl w : served_from w w.
Proof.
  exists []. rewrite app_nil_r. repeat split; try reflexivity; try lia;
    intros; simpl in *; contradiction.
Qed.

Lemma served_from_trans w1 w2 w3 :
  served_from w1 w2 -> served_from w2 w3 -> served_from w1 w3.
Proof.
  intros (e1 & Hl1 & Hn1 & Hb1 & Hh1 & Hs1) (e2 & Hl2 & Hn2 & Hb2 & Hh2 & Hs2).
  exists (e1 ++ e2). split; [|split; [|split; [|split]]].
  - rewrite Hl2, Hl1. now rewrite app_assoc.
  - lia.
  - unfold opened, closed in *. rewrite !omap_app. now rewrite Hb1, Hb2.
  - intros ev h Hev Hin. apply in_app_or in Hev. destruct Hev as [Hev|Hev].
    + specialize (Hh1 ev h Hev Hin). lia.
    + specialize (Hh2 ev h Hev Hin). lia.
  - intros h sql args Hin. apply in_app_or in Hin. destruct Hin as [Hin|Hin]; eauto.
Qed.

Lemma served_from_wf w w' : wf_world w -> served_from w w' -> wf_world w'.
Proof.
  intros Hwf (evs & Hl & Hn & _ & Hh & _) ev h Hev Hin.
  rewrite Hl in Hev. apply in_app_or in Hev. destruct Hev as [Hev|Hev].
  - specialize (Hwf ev h Hev Hin). lia.
  - specialize (Hh ev h Hev Hin). lia.
Qed.

Ltac each_event H Hin :=
  simpl in H;
  repeat (destruct H as [<-|H]; [simpl in Hin; try (destruct Hin as [<-|[]]); simpl|]);
  try destruct H; try destruct Hin.

Ltac only_select Hin :=
  simpl in Hin;
  repeat (destruct Hin as [Hin|Hin];
          [try discriminate; try (now injection Hin as _ <- _)|]);
  try destruct Hin.

Lemma index_served srv m req w : served_from w (snd (index srv m req w)).
Proof.
  destruct (String.eqb (method req) "POST") eqn:Hm.
  - apply String.eqb_eq in Hm.
    destruct (read_form (form req) defaults) as [c|e] eqn:Hr.
    + destruct (srv_connect srv (log w) (DB_CONN m)) as [msg|] eqn:Hc.
      * rewrite (index_post_refused srv m req w c msg Hm Hr Hc); unfold emit; simpl.
        exists (events_refused m); simpl.
        split; [reflexivity|]. split; [lia|]. split; [reflexivity|]. split.
        -- intros ev h Hev Hin. each_event Hev Hin.
        -- intros h sql args Hin. simpl in Hin. intuition discriminate.
      * destruct (srv_execute srv (log_at_query m w) select_fake_users (query_args c))
          as [msg|rows] eqn:Hx.
        -- rewrite (index_post_failed srv m req w c msg Hm Hr Hc Hx); simpl.
           exists (events_failed m c (next_handle w)); simpl.
           split; [reflexivity|]. split; [lia|]. split; [reflexivity|]. split.
           ++ intros ev h Hev Hin. each_event Hev Hin; lia.
           ++ intros h sql args Hin. only_select Hin.
        -- rewrite (index_post_done srv m req w c rows Hm Hr Hc Hx); simpl.
           exists (events_done m c (next_handle w)); simpl.
           split; [reflexivity|]. split; [lia|]. split; [reflexivity|]. split.
           ++ intros ev h Hev Hin. each_event Hev Hin; lia.
           ++ intros h sql args Hin. only_select Hin.
    + rewrite (index_post_raised srv m req w e Hm Hr). apply served_from_refl.
  - rewrite (index_not_post srv m req w Hm). apply served_from_refl.
Qed.

Lemma dispatch_served srv m req w : served_from w (snd (dispatch srv m req w)).
Proof.
  unfold dispatch.
  destruct (String.eqb (method req) "GET" || String.eqb (method req) "HEAD"
            || String.eqb (method req) "POST").
  - apply index_served.
  - destruct (String.eqb (method req) "OPTIONS"); apply served_from_refl.
Qed.

Lemma serve_served srv m reqs :
  forall w, served_from w (snd (serve srv m reqs w)) /\
            length (fst (serve srv m reqs w)) = length reqs.
Proof.
  induction reqs as [|req reqs IH]; intros w; simpl.
  - split; [apply served_from_refl|reflexivity].
  - pose proof (dispatch_served srv m req w) as Hd.
    destruct (dispatch srv m req w) as [r w1]; simpl in Hd.
    destruct (IH w1) as [Hs Hlen].
    destruct (serve srv m reqs w1) as [rs w2]; simpl in *.
    split; [eapply served_from_trans; eassumption|now rewrite Hlen].
Qed.

(** Whatever the requests and whatever the server does, a process that
    got past loading the module answers every request, sends nothing but
    the SELECT, and closes every connection it opened for a request: the
    one left open is the module's own, of line 16, which no request
    uses. *)
Theorem main_leaves_only_module_connection srv load_dotenv os_environ reqs w m rs w' :
  wf_world w ->
  main srv load_dotenv os_environ reqs w = (Ok m, rs, w') ->
  length rs = length reqs /\
  wf_world w' /\
  exists evs,
    log w' = log w ++ EvConnect (DB_CONN m) (conn m) :: evs /\
    opened evs = closed evs /\
    (forall ev, In ev evs -> ~ In (conn m) (event_handles ev)) /\
    (forall h sql args, In (EvExecute h sql args) evs -> sql = select_fake_users).
Proof.
  intros Hwf. unfold main, module_init.
  destruct (load_dotenv os_environ !! "DB_CONN") as [s|]; [|discriminate].
  destruct (String.eqb s ""); [discriminate|].
  unfold bind, connect, ret.
  destruct (srv_connect srv (log w) s) as [msg|]; [discriminate|].
  set (m0 := {| DB_CONN := s; conn := next_handle w |}).
  set (w1 := {| next_handle := S (next_handle w); log := log w ++ [EvConnect s (next_handle w)] |}).
  destruct (serve_served srv m0 reqs w1) as [Hs Hlen].
  destruct (serve srv m0 reqs w1) as [rs0 w2]; simpl in Hs, Hlen.
  intros [= <- <- <-].
  assert (Hwf1 : wf_world w1).
  { intros ev h Hev Hin. simpl in Hev. apply in_app_or in Hev. simpl.
    destruct Hev as [Hev|[<-|[]]].
    - specialize (Hwf ev h Hev Hin). lia.
    - simpl in Hin. destruct Hin as [<-|[]]. lia. }
  split; [exact Hlen|]. split; [exact (served_from_wf w1 w2 Hwf1 Hs)|].
  destruct Hs as (evs & Hl & Hn & Hb & Hh & Hq).
  exists evs. split; [|split; [exact Hb|split; [|exact Hq]]].
  - rewrite Hl. simpl. now rewrite <- app_assoc.
  - intros ev Hev Hin. specialize (Hh ev _ Hev Hin). simpl in Hh. lia.
Qed.

(** * More on the handler *)

(** ** When reading the form fails *)

Lemma read_form_raised_inv f e :
  read_form f defaults = Raised e ->
  non_numeric_field f /\
  exists lit, e = ValueError lit /\ PyInt.parse lit = None.
Proof.
  unfold read_form; simpl.
  destruct (py_int_form_get f "seed" 123) as [[s Hs]|(lit & Hl & Hp & Hs)];
    rewrite Hs; simpl.
  2:{ intros [= <-]. split; [left; now exists lit|now exists lit]. }
  destruct (py_int_form_get f "batch_size" 10) as [[b Hb]|(lit & Hl & Hp & Hb)];
    rewrite Hb; simpl.
  2:{ intros [= <-]. split; [right; left; now exists lit|now exists lit]. }
  destruct (decide (form_get f "action" (VStr "generate") = VStr "next")) as [Ha|Ha];
    [|discriminate].
  destruct (py_int_form_get f "batch_index" 0) as [[k Hk]|(lit & Hl & Hp & Hk)];
    rewrite Hk; simpl; [discriminate|].
  intros [= <-]. split; [|now exists lit].
  right; right. split; [|now exists lit].
  unfold form_get in Ha. destruct (form_lookup f "action") as [a|]; congruence.
Qed.

(** Reading the form fails exactly when seed, batch_size, or batch_index
    under action "next", is sent as text that is no integer, and then
    with [ValueError] on such a text, never with anything else.  The
    conversions run in the order seed, batch_size, batch_index, and the
    first that fails is the one reported. *)
Theorem read_form_fails_iff_non_numeric f :
  (forall e,
      read_form f defaults = Raised e ->
      non_numeric_field f /\
      exists lit, e = ValueError lit /\ PyInt.parse lit = None) /\
  (non_numeric_field f -> exists lit, read_form f defaults = Raised (ValueError lit)) /\
  (forall s,
      form_lookup f "seed" = Some s -> PyInt.parse s = None ->
      read_form f defaults = Raised (ValueError s)) /\
  (forall z s,
      py_int (form_get f "seed" (VInt 123)) = Ok z ->
      form_lookup f "batch_size" = Some s -> PyInt.parse s = None ->
      read_form f defaults = Raised (ValueError s)) /\
  (forall z n s,
      py_int (form_get f "seed" (VInt 123)) = Ok z ->
      py_int (form_get f "batch_size" (VInt 10)) = Ok n ->
      form_lookup f "action" = Some "next" ->
      form_lookup f "batch_index" = Some s -> PyInt.parse s = None ->
      read_form f defaults = Raised (ValueError s)).
Proof.
  split; [|split; [|split; [|split]]].
  - intros e. apply read_form_raised_inv.
  - intros Hbad. destruct (read_form_value_error f Hbad) as (lit & _ & Hr).
    now exists lit.
  - intros s Hl Hp. unfold read_form; simpl.
    rewrite (form_get_found _ _ _ _ Hl); simpl. now rewrite Hp.
  - intros z s Hz Hl Hp. unfold read_form; simpl. rewrite Hz; simpl.
    rewrite (form_get_found _ _ _ _ Hl); simpl. now rewrite Hp.
  - intros z n s Hz Hn Ha Hl Hp. unfold read_form; simpl.
    rewrite Hz; simpl. rewrite Hn; simpl.
    rewrite (form_get_found _ _ _ _ Ha).
    destruct (decide (VStr "next" = VStr "next")) as [_|Hne]; [|congruence].
    rewrite (form_get_found _ _ _ _ Hl); simpl. now rewrite Hp.
Qed.

(** ** When the database is contacted *)

(** The handler contacts the database exactly for a POST request whose
    form converts: for any other request it makes no call on the driver
    at all, and for such a request it makes at least the connection
    attempt. *)
Theorem contacts_database_iff srv m req w :
  events srv m req w <> [] <->
  method req = "POST" /\ exists c, read_form (form req) defaults = Ok c.
Proof.
  destruct (String.eqb_spec (method req) "POST") as [Hm|Hm].
  - destruct (index_post_run srv m req w Hm) as [e Hr|c msg Hr|c msg Hr|c rows Hr].
    + split; [congruence|]. intros (_ & c & Hc). congruence.
    + split; [|discriminate]. intros _. split; [exact Hm|now exists c].
    + split; [|discriminate]. intros _. split; [exact Hm|now exists c].
    + split; [|discriminate]. intros _. split; [exact Hm|now exists c].
  - assert (Hi : index srv m req w = (Ok (Rendered "index.html" defaults), w)).
    { apply index_not_post. now destruct (String.eqb_spec (method req) "POST"). }
    unfold events. rewrite Hi; simpl. rewrite new_events_same.
    split; [congruence|]. intros [Hm' _]. contradiction.
Qed.

(** ** How a request can fail *)

(** A request that raises does so in one of two ways.  Either the form
    did not convert: the exception is a [ValueError] and the driver was
    never called.  Or the driver raised: then nothing was committed, and
    a connection that was opened has been rolled back and closed. *)
Theorem index_failure_modes srv m req w e :
  outcome srv m req w = Raised e ->
  (exists lit, e = ValueError lit /\ PyInt.parse lit = None /\
               events srv m req w = []) \/
  (exists msg, e = PsycopgError msg /\
     (forall h, ~ In (EvCommit h) (events srv m req w)) /\
     (forall h, In h (opened (events srv m req w)) ->
                In (EvRollback h) (events srv m req w) /\
                last (events srv m req w) = Some (EvClose h))).
Proof.
  intros Ho.
  destruct (String.eqb_spec (method req) "POST") as [Hm|Hm].
  - destruct (index_post_run srv m req w Hm) as [e' Hr|c msg Hr|c msg Hr|c rows Hr];
      try discriminate; injection Ho as <-.
    + left. destruct (read_form_raised_inv (form req) e' Hr) as (_ & lit & -> & Hp).
      now exists lit.
    + right. exists msg. split; [reflexivity|]. split.
      * intros h Hin. simpl in Hin. intuition discriminate.
      * intros h Hin. destruct Hin.
    + right. exists msg. split; [reflexivity|]. split.
      * intros h Hin. simpl in Hin. intuition discriminate.
      * intros h Hin. simpl in Hin. destruct Hin as [<-|[]].
        split; [simpl; tauto|reflexivity].
  - assert (Hi : index srv m req w = (Ok (Rendered "index.html" defaults), w)).
    { apply index_not_post. now destruct (String.eqb_spec (method req) "POST"). }
    unfold outcome in Ho. rewrite Hi in Ho. discriminate.
Qed.

(** A statement that the server fails. *)
Lemma index_failure_modes_witness :
  outcome failing_server sample_module req_seed_42 loaded_world =
    Raised (PsycopgError "query failed") /\
  In (EvRollback 1%nat) (events failing_server sample_module req_seed_42 loaded_world).
Proof.
  assert (Ho : outcome failing_server sample_module req_seed_42 loaded_world =
               Raised (PsycopgError "query failed")) by reflexivity.
  split; [exact Ho|].
  destruct (index_failure_modes failing_server sample_module req_seed_42
              loaded_world _ Ho) as [(lit & He & _)|(msg & _ & _ & Hclosed)].
  - discriminate He.
  - apply (Hclosed 1%nat). simpl. left. reflexivity.
Defined.

(** ** Where a page comes from *)

(** A page the handler returns is always the template "index.html".  For
    a request that is no POST it carries the defaults and no rows.  For a
    POST request it carries the locals read from the form and exactly the
    rows the server answered to the one statement, after the connection
    was committed and closed; nothing was rolled back. *)
Theorem page_comes_from_server srv m req w t ctx :
  outcome srv m req w = Ok (Rendered t ctx) ->
  t = "index.html" /\
  ((method req <> "POST" /\ ctx = defaults /\ events srv m req w = []) \/
   (method req = "POST" /\
    exists c,
      read_form (form req) defaults = Ok c /\
      accepts srv m w /\
      answers srv m c w (users ctx) /\
      ctx = with_users c (users ctx) /\
      events srv m req w = events_done m c (next_handle w))).
Proof.
  intros Ho.
  destruct (String.eqb_spec (method req) "POST") as [Hm|Hm].
  - destruct (index_post_run srv m req w Hm) as [e' Hr|c msg Hr|c msg Hr|c rows Hr Ha Hx];
      try discriminate.
    injection Ho as <- <-. split; [reflexivity|]. right. split; [exact Hm|].
    exists c. simpl. repeat split; assumption.
  - assert (Hi : index srv m req w = (Ok (Rendered "index.html" defaults), w)).
    { apply index_not_post. now destruct (String.eqb_spec (method req) "POST"). }
    unfold outcome, events in *. rewrite Hi in *. simpl in *.
    injection Ho as <- <-. split; [reflexivity|]. left.
    split; [exact Hm|]. split; [reflexivity|apply new_events_same].
Qed.

Lemma page_comes_from_server_witness :
  answers good_server sample_module
    {| locale := VStr "fr_FR"; seed := 42; batch_size := 5; batch_index := 0;
       users := [] |} loaded_world sample_rows.
Proof.
  destruct (page_comes_from_server good_server sample_module req_generate_fr
              loaded_world "index.html"
              {| locale := VStr "fr_FR"; seed := 42; batch_size := 5;
                 batch_index := 0; users := sample_rows |} eq_refl)
    as (_ & [(Hm & _)|(_ & c & Hr & _ & Hans & _)]).
  - now contradiction Hm.
  - injection Hr as <-. exact Hans.
Defined.

(** ** What of a request matters *)

(** The handler reads the method and, of a POST request, the first value
    of locale, seed, batch_size, action and batch_index; nothing else in
    the form has any effect on what it does. *)
Theorem index_reads_five_fields srv m r1 r2 w :
  method r1 = method r2 ->
  (method r1 = "POST" -> same_fields (form r1) (form r2)) ->
  index srv m r1 w = index srv m r2 w.
Proof.
  intros Hm Hsame. unfold index. rewrite <- Hm.
  destruct (String.eqb_spec (method r1) "POST") as [Hp|Hp]; [|reflexivity].
  specialize (Hsame Hp).
  assert (Hr : read_form (form r1) defaults = read_form (form r2) defaults).
  { unfold read_form, form_get.
    rewrite !(Hsame "locale"), !(Hsame "seed"), !(Hsame "batch_size"),
      !(Hsame "action"), !(Hsame "batch_index"); simpl; tauto. }
  now rewrite Hr.
Qed.

(** Fields the handler does not know, and a second seed, change
    nothing. *)
Lemma index_reads_five_fields_witness :
  index good_server sample_module
    (post [("csrf", "x"); ("seed", "42"); ("seed", "abc"); ("page", "9")])
    loaded_world =
  index good_server sample_module req_seed_42 loaded_world.
Proof.
  apply index_reads_five_fields; [reflexivity|].
  intros _ key Hin. simpl in Hin.
  repeat (destruct Hin as [<-|Hin]; [reflexivity|]). destruct Hin.
Defined.

(** ** No state between requests *)

Lemma outcome_history_independent srv m req w1 w2 :
  history_independent srv ->
  outcome srv m req w1 = outcome srv m req w2.
Proof.
  intros Hind. unfold outcome.
  destruct (String.eqb (method req) "POST") eqn:Hm.
  - apply String.eqb_eq in Hm.
    destruct (read_form (form req) defaults) as [c|e] eqn:Hr.
    + destruct (Hind (log w1) (log w2)) as [Hconn _].
      destruct (srv_connect srv (log w1) (DB_CONN m)) as [msg|] eqn:Hc1.
      * assert (Hc2 : srv_connect srv (log w2) (DB_CONN m) = Some msg)
          by (rewrite <- Hconn; exact Hc1).
        rewrite (index_post_refused srv m req w1 c msg Hm Hr Hc1).
        now rewrite (index_post_refused srv m req w2 c msg Hm Hr Hc2).
      * assert (Hc2 : srv_connect srv (log w2) (DB_CONN m) = None)
          by (rewrite <- Hconn; exact Hc1).
        destruct (Hind (log_at_query m w1) (log_at_query m w2)) as [_ Hexec].
        destruct (srv_execute srv (log_at_query m w1) select_fake_users (query_args c))
          as [msg|rows] eqn:Hx1.
        -- assert (Hx2 : srv_execute srv (log_at_query m w2) select_fake_users
                           (query_args c) = inl msg) by (rewrite <- Hexec; exact Hx1).
           rewrite (index_post_failed srv m req w1 c msg Hm Hr Hc1 Hx1).
           now rewrite (index_post_failed srv m req w2 c msg Hm Hr Hc2 Hx2).
        -- assert (Hx2 : srv_execute srv (log_at_query m w2) select_fake_users
                           (query_args c) = inr rows) by (rewrite <- Hexec; exact Hx1).
           rewrite (index_post_done srv m req w1 c rows Hm Hr Hc1 Hx1).
           now rewrite (index_post_done srv m req w2 c rows Hm Hr Hc2 Hx2).
    + now rewrite !(index_post_raised srv m req _ e Hm Hr).
  - now rewrite !(index_not_post srv m req _ Hm).
Qed.

Lemma dispatch_history_independent srv m req w1 w2 :
  history_independent srv ->
  fst (dispatch srv m req w1) = fst (dispatch srv m req w2).
Proof.
  intros Hind. unfold dispatch.
  destruct (String.eqb (method req) "GET" || String.eqb (method req) "HEAD"
            || String.eqb (method req) "POST").
  - apply (outcome_history_independent srv m req w1 w2 Hind).
  - destruct (String.eqb (method req) "OPTIONS"); reflexivity.
Qed.

Lemma serve_cons srv m req reqs w :
  fst (serve srv m (req :: reqs) w) =
    fst (dispatch srv m req w)
    :: fst (serve srv m reqs (snd (dispatch srv m req w))).
Proof.
  simpl. destruct (dispatch srv m req w) as [r w1]; simpl.
  destruct (serve srv m reqs w1) as [rs w2]. reflexivity.
Qed.

(** The handler keeps nothing from one request to the next.  Against a
    server whose answers do not depend on the past, the answer to each
    request of a run is the answer the request gets on its own, whatever
    was served before it; so a request that is sent again is answered
    the same again. *)
Theorem answers_do_not_depend_on_earlier_requests srv m reqs w w0 :
  history_independent srv ->
  fst (serve srv m reqs w) = map (fun req => fst (dispatch srv m req w0)) reqs.
Proof.
  intros Hind. revert w. induction reqs as [|req reqs IH]; intros w.
  - reflexivity.
  - rewrite serve_cons. simpl. rewrite IH.
    now rewrite (dispatch_history_independent srv m req w w0 Hind).
Qed.

(** The same "next" request twice: the second answer is page 1 again,
    not page 2. *)
Lemma answers_do_not_depend_on_earlier_requests_witness :
  map page_index
    (fst (serve good_server sample_module [req_next_only; req_next_only] loaded_world)) =
    [Some 1; Some 1].
Proof.
  rewrite (answers_do_not_depend_on_earlier_requests good_server sample_module
             [req_next_only; req_next_only] loaded_world loaded_world).
  - reflexivity.
  - intros l1 l2. split; reflexivity.
Defined.

(** ** Paging forward *)

Lemma dispatch_post srv m req w :
  method req = "POST" -> dispatch srv m req w = index srv m req w.
Proof. intros Hm. unfold dispatch. rewrite Hm. reflexivity. Qed.

Lemma shift_indices (b : Z) (n : nat) :
  map (fun i => Some (b + Z.of_nat i)) (seq 2 n) =
  map (fun i => Some (b + 1 + Z.of_nat i)) (seq 1 n).
Proof.
  rewrite <- (seq_shift n 1), map_map. apply map_ext.
  intros i. f_equal. lia.
Qed.

(** A client that pages forward from batch index [b], sending back with
    each "next" the index of the page it has, is answered by a server
    that always answers with the pages [b + 1], [b + 2], ... in turn:
    every request advances by exactly one page. *)
Theorem paging_advances_by_one srv m b reqs w :
  always_answers srv ->
  pages_forward b reqs ->
  map page_index (fst (serve srv m reqs w)) =
    map (fun i => Some (b + Z.of_nat i)) (seq 1 (length reqs)).
Proof.
  intros Hsrv Hpages. revert w.
  induction Hpages as [b|b req reqs s n Hm Hs Hn Ha Hb Hpages IH]; intros w.
  - reflexivity.
  - rewrite serve_cons. simpl. rewrite IH, shift_indices. f_equal.
    rewrite (dispatch_post srv m req w Hm).
    pose proof (read_form_next (form req) s n b Hs Hn Ha Hb) as Hr.
    destruct (Hsrv (log w)) as [Hconn _].
    destruct (Hsrv (log_at_query m w)) as [_ Hexec].
    destruct (Hexec select_fake_users
                (query_args {| locale := form_get (form req) "locale" (VStr "en_US");
                               seed := s; batch_size := n; batch_index := b + 1;
                               users := [] |})) as [rows Hrows].
    rewrite (index_post_done srv m req w _ rows Hm Hr (Hconn _) Hrows).
    simpl. f_equal; lia.
Qed.

(** Three times "next", from the first page. *)
Lemma paging_advances_by_one_witness :
  map page_index
    (fst (serve good_server sample_module
            [post [("action", "next"); ("batch_index", "0")];
             post [("action", "next"); ("batch_index", "1")];
             post [("action", "next"); ("batch_index", "2")]] loaded_world)) =
    [Some 1; Some 2; Some 3].
Proof.
  apply (paging_advances_by_one good_server sample_module 0).
  - intros l. split; [reflexivity|]. intros sql args. now exists sample_rows.
  - repeat (eapply pages_next; [reflexivity ..|]). apply pages_done.
Defined.

(** ** Start-up, continued *)

(** With a DB_CONN that is set and not empty, loading the module goes on
    to line 16 and asks for a connection with exactly that string.  When
    the server refuses it the driver's exception ends the process before
    any request is served; when it grants it the module is loaded with
    that string as its DB_CONN, and no [RuntimeError] is raised. *)
Theorem startup_connects_or_dies srv (load_dotenv : environ -> environ)
    (os_environ : environ) reqs w s :
  load_dotenv os_environ !! "DB_CONN" = Some s ->
  s <> "" ->
  match srv_connect srv (log w) s with
  | Some msg =>
      main srv load_dotenv os_environ reqs w =
        (Raised (PsycopgError msg), [], emit (EvConnectFailed s) w)
  | None =>
      module_init srv load_dotenv os_environ w =
        (Ok {| DB_CONN := s; conn := next_handle w |},
         {| next_handle := S (next_handle w);
            log := log w ++ [EvConnect s (next_handle w)] |})
  end.
Proof.
  intros Henv Hne. unfold main, module_init. rewrite Henv.
  destruct (String.eqb_spec s "") as [->|_]; [contradiction|].
  unfold bind, connect, ret.
  destruct (srv_connect srv (log w) s); reflexivity.
Qed.

(** The database is down when the process starts. *)
Lemma startup_connects_or_dies_witness :
  main down_server (fun e => e) {["DB_CONN" := "dbname=fake"]}
    [req_next_only] empty_world =
    (Raised (PsycopgError "connection refused"), [],
     {| next_handle := 0%nat; log := [EvConnectFailed "dbname=fake"] |}).
Proof.
  apply (startup_connects_or_dies down_server (fun e => e)
           {["DB_CONN" := "dbname=fake"]} [req_next_only] empty_world "dbname=fake").
  - vm_compute. reflexivity.
  - discriminate.
Defined.

(** ** The process as a whole, continued *)

Lemma main_leaves_only_module_connection_witness :
  exists evs,
    log (snd (main good_server (fun e => e) {["DB_CONN" := "dbname=fake"]}
                [req_next_only; {| method := "GET"; form := [] |}] empty_world)) =
      EvConnect "dbname=fake" 0%nat :: evs /\
    opened evs = closed evs.
Proof.
  destruct (main_leaves_only_module_connection good_server (fun e => e)
              {["DB_CONN" := "dbname=fake"]}
              [req_next_only; {| method := "GET"; form := [] |}] empty_world
              sample_module _ _
              ltac:(intros ev h Hin; destruct Hin)
              ltac:(vm_compute; reflexivity))
    as (_ & _ & evs & Hlog & Hbal & _).
  exists evs. split; [|exact Hbal].
  vm_compute in Hlog |- *. exact Hlog.
Defined.

Lemma served_by_refl m w : served_by m 0 w w.
Proof.
  exists []. rewrite app_nil_r. repeat split; try lia; try constructor;
    intros; simpl in *; contradiction.
Qed.

Lemma executed_on_named evs h :
  In h (executed_on evs) -> exists ev, In ev evs /\ In h (event_handles ev).
Proof.
  induction evs as [|ev evs IH]; simpl; [intros []|].
  destruct ev; simpl; try (intros Hin; destruct (IH Hin) as (ev' & ? & ?);
                           exists ev'; tauto).
  intros [<-|Hin].
  - eexists. split; [left; reflexivity|simpl; tauto].
  - destruct (IH Hin) as (ev' & ? & ?). exists ev'. tauto.
Qed.

Lemma opened_named evs h :
  In h (opened evs) -> exists ev, In ev evs /\ In h (event_handles ev).
Proof.
  induction evs as [|ev evs IH]; simpl; [intros []|].
  destruct ev; simpl; try (intros Hin; destruct (IH Hin) as (ev' & ? & ?);
                           exists ev'; tauto).
  intros [<-|Hin].
  - eexists. split; [left; reflexivity|simpl; tauto].
  - destruct (IH Hin) as (ev' & ? & ?). exists ev'. tauto.
Qed.

Lemma served_by_trans m n1 n2 w1 w2 w3 :
  served_by m n1 w1 w2 -> served_by m n2 w2 w3 -> served_by m (n1 + n2) w1 w3.
Proof.
  intros (e1 & Hl1 & Hn1 & Hh1 & Hd1 & Hx1 & Hc1) (e2 & Hl2 & Hn2 & Hh2 & Hd2 & Hx2 & Hc2).
  exists (e1 ++ e2). split; [|split; [|split; [|split; [|split]]]].
  - rewrite Hl2, Hl1. now rewrite app_assoc.
  - lia.
  - intros ev h Hev Hin. unfold opened. rewrite omap_app.
    apply in_app_or in Hev. destruct Hev as [Hev|Hev].
    + destruct (Hh1 ev h Hev Hin) as [Hr Ho]. split; [lia|].
      apply in_or_app. now left.
    + destruct (Hh2 ev h Hev Hin) as [Hr Ho]. split; [lia|].
      apply in_or_app. now right.
  - unfold opened. rewrite omap_app. apply NoDup_app. split; [exact Hd1|].
    split; [|exact Hd2].
    intros h Hin1 Hin2. apply list_elem_of_In in Hin1, Hin2.
    destruct (opened_named _ _ Hin1) as (ev1 & Hev1 & Hi1).
    destruct (opened_named _ _ Hin2) as (ev2 & Hev2 & Hi2).
    destruct (Hh1 _ _ Hev1 Hi1) as [? _]. destruct (Hh2 _ _ Hev2 Hi2) as [? _]. lia.
  - unfold executed_on. rewrite omap_app. apply NoDup_app. split; [exact Hx1|].
    split; [|exact Hx2].
    intros h Hin1 Hin2. apply list_elem_of_In in Hin1, Hin2.
    destruct (executed_on_named _ _ Hin1) as (ev1 & Hev1 & Hi1).
    destruct (executed_on_named _ _ Hin2) as (ev2 & Hev2 & Hi2).
    destruct (Hh1 _ _ Hev1 Hi1) as [? _]. destruct (Hh2 _ _ Hev2 Hi2) as [? _]. lia.
  - unfold connect_attempts in *. rewrite omap_app, Hc1, Hc2.
    symmetry. apply repeat_app.
Qed.

Lemma index_served_by srv m req w :
  served_by m (if reaches_database req then 1 else 0) w (snd (index srv m req w)).
Proof.
  unfold reaches_database.
  destruct (String.eqb (method req) "POST") eqn:Hm; simpl.
  - apply String.eqb_eq in Hm.
    destruct (read_form (form req) defaults) as [c|e] eqn:Hr.
    + destruct (srv_connect srv (log w) (DB_CONN m)) as [msg|] eqn:Hc.
      * rewrite (index_post_refused srv m req w c msg Hm Hr Hc); unfold emit; simpl.
        exists (events_refused m); simpl.
        split; [reflexivity|]. split; [lia|]. split.
        { intros ev h [<-|[]] []. }
        split; [constructor|]. split; [constructor|reflexivity].
      * destruct (srv_execute srv (log_at_query m w) select_fake_users (query_args c))
          as [msg|rows] eqn:Hx.
        -- rewrite (index_post_failed srv m req w c msg Hm Hr Hc Hx); simpl.
           exists (events_failed m c (next_handle w)); simpl.
           split; [reflexivity|]. split; [lia|]. split.
           { intros ev h Hev Hin. each_event Hev Hin; split; try lia; now left. }
           split; [apply NoDup_singleton|]. split; [apply NoDup_singleton|reflexivity].
        -- rewrite (index_post_done srv m req w c rows Hm Hr Hc Hx); simpl.
           exists (events_done m c (next_handle w)); simpl.
           split; [reflexivity|]. split; [lia|]. split.
           { intros ev h Hev Hin. each_event Hev Hin; split; try lia; now left. }
           split; [apply NoDup_singleton|]. split; [apply NoDup_singleton|reflexivity].
    + rewrite (index_post_raised srv m req w e Hm Hr). apply served_by_refl.
  - rewrite (index_not_post srv m req w Hm). apply served_by_refl.
Qed.

Lemma dispatch_served_by srv m req w :
  served_by m (if reaches_database req then 1 else 0) w (snd (dispatch srv m req w)).
Proof.
  unfold dispatch.
  destruct (String.eqb (method req) "GET" || String.eqb (method req) "HEAD"
            || String.eqb (method req) "POST") eqn:Hroute.
  - apply index_served_by.
  - assert (Hno : reaches_database req = false).
    { unfold reaches_database.
      destruct (String.eqb (method req) "POST"); [|reflexivity].
      now rewrite !orb_true_r in Hroute. }
    rewrite Hno.
    destruct (String.eqb (method req) "OPTIONS"); apply served_by_refl.
Qed.

Lemma serve_served_by srv m reqs w :
  served_by m (length (List.filter reaches_database reqs)) w
    (snd (serve srv m reqs w)).
Proof.
  revert w. induction reqs as [|req reqs IH]; intros w; simpl.
  - apply served_by_refl.
  - pose proof (dispatch_served_by srv m req w) as Hd.
    destruct (dispatch srv m req w) as [r w1]; simpl in Hd.
    specialize (IH w1). destruct (serve srv m reqs w1) as [rs w2]; simpl in *.
    pose proof (served_by_trans m _ _ w w1 w2 Hd IH) as Ht.
    destruct (reaches_database req); exact Ht.
Qed.

(** In a process that got past loading the module, the DB_CONN of the
    module is the string line 11 read from the environment and is not
    empty.  The connections asked for in the run are the module's own and
    then exactly one for each request that reached the database, every
    one with that string.  The connections opened are all different, the
    first being the module's; every statement was sent on a connection
    opened for a request, never on the module's, and no two statements
    on the same one: no connection is shared between requests or with
    the module. *)
Theorem connections_use_DB_CONN_and_are_distinct srv
    (load_dotenv : environ -> environ) (os_environ : environ) reqs w m rs w' :
  main srv load_dotenv os_environ reqs w = (Ok m, rs, w') ->
  load_dotenv os_environ !! "DB_CONN" = Some (DB_CONN m) /\
  DB_CONN m <> "" /\
  connect_attempts (new_events w w') =
    List.repeat (DB_CONN m) (1 + length (List.filter reaches_database reqs)) /\
  (forall ci, In ci (connect_attempts (new_events w w')) -> ci = DB_CONN m) /\
  NoDup (opened (new_events w w')) /\
  head (opened (new_events w w')) = Some (conn m) /\
  NoDup (executed_on (new_events w w')) /\
  (forall h, In h (executed_on (new_events w w')) ->
             In h (opened (new_events w w')) /\ h <> conn m).
Proof.
  unfold main, module_init.
  destruct (load_dotenv os_environ !! "DB_CONN") as [s|]; [|discriminate].
  destruct (String.eqb_spec s "") as [|Hne]; [discriminate|].
  unfold bind, connect, ret.
  destruct (srv_connect srv (log w) s) as [msg|]; [discriminate|].
  set (m0 := {| DB_CONN := s; conn := next_handle w |}).
  set (w1 := {| next_handle := S (next_handle w); log := log w ++ [EvConnect s (next_handle w)] |}).
  pose proof (serve_served_by srv m0 reqs w1) as Hs.
  destruct (serve srv m0 reqs w1) as [rs0 w2]; simpl in Hs.
  intros [= <- <- <-]. simpl.
  destruct Hs as (evs & Hl & Hn & Hh & Hd & Hx & Hc). simpl in Hl, Hn, Hh, Hc.
  assert (Hnew : new_events w w2 = EvConnect s (next_handle w) :: evs).
  { unfold new_events. rewrite Hl, <- app_assoc. simpl. apply drop_app_length. }
  rewrite Hnew. simpl. rewrite Hc.
  split; [reflexivity|]. split; [exact Hne|]. split; [reflexivity|].
  split; [|split; [|split; [reflexivity|split; [exact Hx|]]]].
  - intros ci [<-|Hin]; [reflexivity|]. now apply repeat_spec in Hin.
  - apply NoDup_cons. split; [|exact Hd].
    intros Hin. apply list_elem_of_In in Hin.
    destruct (opened_named _ _ Hin) as (ev & Hev & Hi).
    destruct (Hh _ _ Hev Hi) as [? _]. lia.
  - intros h Hin. destruct (executed_on_named _ _ Hin) as (ev & Hev & Hi).
    destruct (Hh _ _ Hev Hi) as [Hr Ho]. split; [now right|lia].
Qed.

(** Two requests that reach the database and one that does not. *)
Lemma connections_use_DB_CONN_and_are_distinct_witness :
  connect_attempts
    (new_events empty_world
       (snd (main good_server (fun e => e) {["DB_CONN" := "dbname=fake"]}
               [req_next_only; req_seed_abc; req_seed_42] empty_world))) =
    ["dbname=fake"; "dbname=fake"; "dbname=fake"] /\
  executed_on
    (new_events empty_world
       (snd (main good_server (fun e => e) {["DB_CONN" := "dbname=fake"]}
               [req_next_only; req_seed_abc; req_seed_42] empty_world))) =
    [1%nat; 2%nat].
Proof.
  set (run := main good_server (fun e => e) {["DB_CONN" := "dbname=fake"]}
                [req_next_only; req_seed_abc; req_seed_42] empty_world).
  assert (Hrun : run = (Ok sample_module, snd (fst run), snd run))
    by (vm_compute; reflexivity).
  destruct (connections_use_DB_CONN_and_are_distinct good_server (fun e => e)
              {["DB_CONN" := "dbname=fake"]}
              [req_next_only; req_seed_abc; req_seed_42] empty_world
              sample_module _ _ Hrun)
    as (_ & _ & Hattempts & _).
  split; [|vm_compute; reflexivity].
  vm_compute in Hattempts |- *. exact Hattempts.
Defined.

(** ** Integers that come back as text *)

Lemma digit_is_plain c i :
  PyInt.digit_value c = Some i ->
  PyInt.is_space c = false /\ PyInt.is_underscore c = false /\
  PyInt.take_sign [c] = (false, [c]).
Proof.
  unfold PyInt.digit_value, PyInt.is_space, PyInt.is_underscore, PyInt.take_sign.
  destruct ((48 <=? N_of_ascii c)%N && (N_of_ascii c <=? 57)%N) eqn:Hd; [|discriminate].
  intros _. apply andb_true_iff in Hd. destruct Hd as [H1 H2].
  apply N.leb_le in H1, H2.
  assert (E1 : (N_of_ascii c <=? 13)%N = false) by (apply N.leb_gt; lia).
  assert (E2 : (N_of_ascii c =? 32)%N = false) by (apply N.eqb_neq; lia).
  assert (E3 : (N_of_ascii c =? 95)%N = false) by (apply N.eqb_neq; lia).
  assert (E4 : (N_of_ascii c =? 43)%N = false) by (apply N.eqb_neq; lia).
  assert (E5 : (N_of_ascii c =? 45)%N = false) by (apply N.eqb_neq; lia).
  rewrite E1, E2, E3, E4, E5, andb_false_r. repeat split.
Qed.

Lemma scan_uint d acc :
  PyInt.scan false acc
    (list_ascii_of_string (DecimalString.NilEmpty.string_of_uint d)) =
    Some (false, rev (uint_digits d) ++ acc, []).
Proof.
  revert acc. induction d; intros acc; simpl;
    try (rewrite IHd; simpl; rewrite <- app_assoc; reflexivity).
  reflexivity.
Qed.

Lemma uint_digits_length d :
  length (uint_digits d) =
    String.length (DecimalString.NilEmpty.string_of_uint d).
Proof. induction d; simpl; congruence. Qed.

Lemma of_uint_acc_digits d acc :
  Z.pos (Pos.of_uint_acc d acc) =
    fold_left (fun a x => 10 * a + x) (uint_digits d) (Z.pos acc).
Proof.
  revert acc. induction d; intros acc; simpl; try reflexivity;
    rewrite IHd; f_equal; lia.
Qed.

Lemma of_uint_digits d :
  Z.of_uint d = PyInt.digits_value (uint_digits d).
Proof.
  unfold Z.of_uint, PyInt.digits_value.
  induction d; simpl; try reflexivity; try exact IHd;
    apply of_uint_acc_digits.
Qed.

Lemma parse_plain s :
  Forall (fun c => (N_of_ascii c < 127)%N) (list_ascii_of_string s) ->
  PyInt.parse s = PyInt.parse_ascii (list_ascii_of_string s).
Proof.
  intros Hplain. unfold PyInt.parse.
  assert (H : forall l, Forall (fun c => (N_of_ascii c < 127)%N) l ->
                        PyInt.code_points l = Some (map N_of_ascii l) /\
                        PyInt.to_ascii (map N_of_ascii l) = l).
  { induction l as [|c l IH]; intros Hl; [split; reflexivity|].
    apply Forall_cons_1 in Hl. destruct Hl as [Hc Hl].
    destruct (IH Hl) as [Hcp Hto]. simpl.
    assert (E1 : (N_of_ascii c <? 128)%N = true) by (apply N.ltb_lt; lia).
    assert (E2 : (N_of_ascii c <? 127)%N = true) by (apply N.ltb_lt; lia).
    rewrite E1, E2, Hcp, Hto, ascii_N_embedding. split; reflexivity. }
  destruct (H _ Hplain) as [-> ->]. reflexivity.
Qed.

Lemma uint_text_plain d :
  Forall (fun c => (N_of_ascii c < 127)%N)
    (list_ascii_of_string (DecimalString.NilEmpty.string_of_uint d)).
Proof.
  induction d; simpl; constructor; try assumption; reflexivity.
Qed.

(** [int] on the digits of a decimal number, with or without a minus
    sign in front. *)
Lemma parse_digits (neg : bool) d :
  d <> Decimal.Nil ->
  (length (uint_digits d) <= 4300)%nat ->
  PyInt.parse
    ((if neg then String "-" else fun s => s)
       (DecimalString.NilEmpty.string_of_uint d)) =
    Some (if neg then - Z.of_uint d else Z.of_uint d).
Proof.
  intros Hnil Hlen.
  assert (Hhead : exists c i l,
             list_ascii_of_string (DecimalString.NilEmpty.string_of_uint d) = c :: l /\
             PyInt.digit_value c = Some i).
  { destruct d; try contradiction; simpl; eexists _, _, _; split; reflexivity. }
  destruct Hhead as (c & i & l & Hl & Hc).
  destruct (digit_is_plain c i Hc) as (Hsp & Hus & Hsg).
  pose proof (scan_uint d []) as Hscan. rewrite Hl, app_nil_r in Hscan.
  assert (Hn0 : (Z.of_nat (length (rev (uint_digits d))) =? 0) = false).
  { apply Z.eqb_neq. rewrite length_rev.
    destruct d; try contradiction; simpl; lia. }
  assert (Hmax : (PyInt.int_max_str_digits <? Z.of_nat (length (rev (uint_digits d)))) = false).
  { apply Z.ltb_ge. rewrite length_rev. unfold PyInt.int_max_str_digits. lia. }
  assert (Htail : PyInt.parse_ascii (c :: l) = Some (Z.of_uint d)).
  { unfold PyInt.parse_ascii. simpl PyInt.skip_space. rewrite Hsp.
    unfold PyInt.take_sign in *. simpl in Hsg.
    destruct (N_of_ascii c =? 43)%N; [discriminate|].
    destruct (N_of_ascii c =? 45)%N; [discriminate|].
    rewrite Hus, Hscan, Hn0, Hmax. simpl. rewrite rev_involutive.
    now rewrite of_uint_digits. }
  pose proof (uint_text_plain d) as Hplain.
  destruct neg.
  - rewrite parse_plain by (simpl; constructor; [reflexivity|exact Hplain]).
    simpl list_ascii_of_string. rewrite Hl.
    unfold PyInt.parse_ascii.
    change (PyInt.skip_space ("-"%char :: c :: l)) with ("-"%char :: c :: l).
    change (PyInt.take_sign ("-"%char :: c :: l)) with (true, c :: l).
    cbv iota beta. rewrite Hus, Hscan, Hn0, Hmax. simpl. rewrite rev_involutive.
    now rewrite of_uint_digits.
  - rewrite parse_plain by exact Hplain. now rewrite Hl.
Qed.

Lemma to_int_digits z :
  exists (neg : bool) d,
    d <> Decimal.Nil /\
    decimal_text z =
      (if neg then String "-" else fun s => s)
        (DecimalString.NilEmpty.string_of_uint d) /\
    z = (if neg then - Z.of_uint d else Z.of_uint d).
Proof.
  pose proof (DecimalZ.of_to z) as Hz. unfold decimal_text.
  destruct z as [|p|p]; simpl in *.
  - exists false, (Decimal.D0 Decimal.Nil). repeat split. discriminate.
  - exists false, (Pos.to_uint p).
    pose proof (DecimalPos.Unsigned.to_uint_nonnil p) as Hn.
    split; [exact Hn|]. split; [|now symmetry].
    unfold DecimalString.NilZero.string_of_uint.
    destruct (Pos.to_uint p); try reflexivity. contradiction.
  - exists true, (Pos.to_uint p).
    pose proof (DecimalPos.Unsigned.to_uint_nonnil p) as Hn.
    split; [exact Hn|]. split; [|now symmetry].
    unfold DecimalString.NilZero.string_of_uint.
    destruct (Pos.to_uint p); try reflexivity. contradiction.
Qed.

Lemma parse_decimal_text z :
  (String.length (decimal_text z) <= 4300)%nat ->
  PyInt.parse (decimal_text z) = Some z.
Proof.
  intros Hlen. destruct (to_int_digits z) as (neg & d & Hn & Htext & Hz).
  rewrite Htext in Hlen. rewrite Htext.
  rewrite (parse_digits neg d Hn); [now rewrite <- Hz|].
  rewrite uint_digits_length. destruct neg; simpl in Hlen; lia.
Qed.

(** Integer fields are read back as they were written: when seed and
    batch_size are sent as the decimal numerals of [s] and [n], the
    handler has [s] and [n] as its seed and batch_size, whatever their
    sign or size up to the 4300 characters [int] accepts; with action
    "next" and batch_index the numeral of [k], it has [k + 1].  No range
    is imposed on any of them. *)
Theorem numerals_are_read_back f s n k :
  form_lookup f "seed" = Some (decimal_text s) ->
  form_lookup f "batch_size" = Some (decimal_text n) ->
  form_lookup f "action" = Some "next" ->
  form_lookup f "batch_index" = Some (decimal_text k) ->
  (String.length (decimal_text s) <= 4300)%nat ->
  (String.length (decimal_text n) <= 4300)%nat ->
  (String.length (decimal_text k) <= 4300)%nat ->
  read_form f defaults =
    Ok {| locale := form_get f "locale" (VStr "en_US"); seed := s;
          batch_size := n; batch_index := k + 1; users := [] |}.
Proof.
  intros Hs Hn Ha Hk Ls Ln Lk. apply read_form_next.
  - rewrite (form_get_found _ _ _ _ Hs); simpl. now rewrite parse_decimal_text.
  - rewrite (form_get_found _ _ _ _ Hn); simpl. now rewrite parse_decimal_text.
  - now apply form_get_found.
  - rewrite (form_get_found _ _ _ _ Hk); simpl. now rewrite parse_decimal_text.
Qed.

(** A negative seed, batch_size zero, and page 12. *)
Lemma numerals_are_read_back_witness :
  read_form [("seed", "-7"); ("batch_size", "0"); ("action", "next");
             ("batch_index", "12")] defaults =
    Ok {| locale := VStr "en_US"; seed := -7; batch_size := 0;
          batch_index := 13; users := [] |}.
Proof.
  apply (numerals_are_read_back
           [("seed", "-7"); ("batch_size", "0"); ("action", "next");
            ("batch_index", "12")] (-7) 0 12);
    first [reflexivity | apply Nat.leb_le; reflexivity].
Defined.

(** ** What is bound to the statement *)

(** Every statement the handler sends has the fixed text of line 44 and
    carries exactly four arguments: a string, which is the locale as it
    was sent or "en_US", and three integers.  The text of the form
    reaches the database in that one argument and nowhere else. *)
Theorem statement_arguments_are_typed srv m req w h sql args :
  In (EvExecute h sql args) (events srv m req w) ->
  sql = "SELECT * FROM generate_fake_users(%s, %s, %s, %s)" /\
  exists l s n k,
    args = [VStr l; VInt s; VInt n; VInt k] /\
    form_get (form req) "locale" (VStr "en_US") = VStr l.
Proof.
  intros Hin.
  destruct (String.eqb (method req) "POST") eqn:Hm.
  - apply String.eqb_eq in Hm.
    destruct (read_form (form req) defaults) as [c|e] eqn:Hr.
    + destruct (post_calls srv m req w c Hm Hr h sql args Hin) as (_ & -> & ->).
      split; [reflexivity|].
      destruct (read_form_inv (form req) c Hr) as (Hloc & _).
      assert (Hl : exists l, form_get (form req) "locale" (VStr "en_US") = VStr l).
      { unfold form_get. destruct (form_lookup (form req) "locale") as [l|];
          eexists; reflexivity. }
      destruct Hl as [l Hl]. exists l, (seed c), (batch_size c), (batch_index c).
      split; [|exact Hl]. unfold query_args. now rewrite Hloc, Hl.
    + unfold events in Hin. rewrite (index_post_raised srv m req w e Hm Hr) in Hin.
      simpl in Hin. rewrite new_events_same in Hin. destruct Hin.
  - unfold events in Hin. rewrite (index_not_post srv m req w Hm) in Hin.
    simpl in Hin. rewrite new_events_same in Hin. destruct Hin.
Qed.

(** A locale that tries to be SQL is bound as a string like any other. *)
Lemma statement_arguments_are_typed_witness :
  select_fake_users = "SELECT * FROM generate_fake_users(%s, %s, %s, %s)" /\
  exists l s n k,
    [VStr "x'); DROP TABLE users; --"; VInt 123; VInt 10; VInt 0] =
      [VStr l; VInt s; VInt n; VInt k] /\
    form_get [("locale", "x'); DROP TABLE users; --")] "locale" (VStr "en_US") = VStr l.
Proof.
  apply (statement_arguments_are_typed good_server sample_module
           (post [("locale", "x'); DROP TABLE users; --")]) loaded_world
           1%nat select_fake_users).
  vm_compute. tauto.
Defined.
